(** * SolarIQ: the production estimator of [newproj.py]

    A shallow embedding of the numeric core of the dashboard
    ([SolarCellCalculator.calculate_daily_production]), of the sizing
    computation of the second tab and of the temperature collaborator
    ([fetch_tomorrow_temperature]), with the properties of the written
    specification stated over them.

    Numbers: Python and NumPy compute in IEEE binary64.  The embedding
    reads every float as the real number it denotes and every operation
    ([+], [*], [/], [np.exp], [np.sin], [np.radians]) as the exact
    operation on [R]; rounding, infinities and NaN are outside the model.
    Equalities proved here are therefore equalities of the exact values
    the float program approximates. *)

From Stdlib Require Import String Reals Lra Lia ZArith List.
Import ListNotations.

Local Open Scope R_scope.

(** ** The estimator *)

Module Estimator.

(** [class SolarCellCalculator]: the three attributes set by [__init__]. *)
Record SolarCellCalculator : Type := mkCalculator {
  efficiency : R;
  area_m2 : R;
  tilt_angle : R
}.

(** The dictionary returned by [calculate_daily_production]. *)
Record ProductionResult : Type := mkResult {
  hourly_production : list R;
  total_production : R
}.

(** [np.arange(n)]: the integers [0 .. n-1]. *)
Definition arange (n : nat) : list Z := map Z.of_nat (seq 0 n).

(** [np.radians(d)]. *)
Definition radians (d : R) : R := d * (PI / 180).

(** Python's builtin [sum]: a left fold that starts from [0]. *)
Definition py_sum (l : list R) : R := fold_left Rplus l 0.

(** Python's [max(0, x)]: the second argument only when it is greater. *)
Definition max0 (x : R) : R := if Rlt_dec 0 x then x else 0.

(** Line 83. *)
Definition temp_factor (temperature_C : R) : R :=
  1 - 0.004 * max0 (temperature_C - 25).

(** Line 84. *)
Definition tilt_factor (tilt : R) : R :=
  sin (radians tilt) * 0.5 + 0.5.

(** Line 87, one element: [exp(-0.5 * ((h - 12)/4)**2)]. *)
Definition gauss_weight (h : Z) : R :=
  exp (- 0.5 * (IZR (h - 12) / 4) ^ 2).

(** Line 87: the unnormalised profile over [np.arange(24)]. *)
Definition profile_raw : list R := map gauss_weight (arange 24).

(** Line 88: [profile /= profile.sum()]. *)
Definition profile : list R :=
  map (fun w => w / py_sum profile_raw) profile_raw.

(** Lines 78-100. *)
Definition calculate_daily_production
    (self : SolarCellCalculator) (daily_irradiance_kwh temperature_C : R)
    : ProductionResult :=
  let daily_irradiance_wh := daily_irradiance_kwh * 1000 in
  let tf := temp_factor temperature_C in
  let tlt := tilt_factor (tilt_angle self) in
  let hourly_irradiance := map (fun w => daily_irradiance_wh * w) profile in
  let hourly :=
    map (fun irr => irr * area_m2 self * efficiency self * tf * tlt)
        hourly_irradiance in
  mkResult hourly (py_sum hourly).

End Estimator.

Import Estimator.

(** ** Python values, exceptions and HTTP replies *)

Module Py.

(** The exceptions the modelled calls can raise. *)
Inductive exn : Type :=
| TypeError
| KeyError
| IndexError
| ValueError
| OverflowError
| JSONDecodeError
| HTTPError
| RequestException.

(** A call returns a value or raises. *)
Inductive res (A : Type) : Type :=
| Ret (a : A)
| Raise (e : exn).

Arguments Ret {A} a.
Arguments Raise {A} e.

Definition bind {A B : Type} (m : res A) (k : A -> res B) : res B :=
  match m with
  | Ret a => k a
  | Raise e => Raise e
  end.

(** [try: m  except: handler]; a bare [except] and [except Exception]
    catch every exception of [exn]. *)
Definition try_except {A : Type} (m : res A) (handler : A) : A :=
  match m with
  | Ret a => a
  | Raise _ => handler
  end.

(** What [response.json()] yields: the values of the [json] module.  A
    number written as an integer is read as a Python [int] of any size
    ([JInt]), any other number as a float ([JNum]). *)
#[local] Unset Elimination Schemes.
Inductive json : Type :=
| JNull
| JBool (b : bool)
| JInt (n : Z)
| JNum (r : R)
| JStr (s : string)
| JArr (items : list json)
| JObj (fields : list (string * json)).
#[local] Set Elimination Schemes.

(** A [requests] response: the status code and the body, [None] when the
    body is not JSON. *)
Record Response : Type := mkResponse {
  status_code : Z;
  body : option json
}.

(** [response.json()]. *)
Definition response_json (r : Response) : res json :=
  match body r with
  | Some v => Ret v
  | None => Raise JSONDecodeError
  end.

(** [response.raise_for_status()]: an error for 4xx and 5xx. *)
Definition raise_for_status (r : Response) : res unit :=
  if andb (400 <=? status_code r)%Z (status_code r <? 600)%Z
  then Raise HTTPError else Ret tt.

(** Lookup in the dictionary built from the fields of a JSON object, in
    document order: a later field replaces an earlier one of the same
    name. *)
Fixpoint dict_get (k : string) (fields : list (string * json)) : option json :=
  match fields with
  | [] => None
  | (k', v) :: rest =>
      match dict_get k rest with
      | Some v' => Some v'
      | None => if String.eqb k k' then Some v else None
      end
  end.

(** [d[k]] with a string key. *)
Definition getitem_str (d : json) (k : string) : res json :=
  match d with
  | JObj fields =>
      match dict_get k fields with
      | Some v => Ret v
      | None => Raise KeyError
      end
  | _ => Raise TypeError
  end.

(** [d[i]] with a non-negative integer index. *)
Definition getitem_idx (d : json) (i : nat) : res json :=
  match d with
  | JArr items =>
      match nth_error items i with
      | Some v => Ret v
      | None => Raise IndexError
      end
  | JStr s =>
      match String.get i s with
      | Some c => Ret (JStr (String c EmptyString))
      | None => Raise IndexError
      end
  | JObj _ => Raise KeyError
  | _ => Raise TypeError
  end.

(** The truth value of [d] in [if d:]. *)
Definition truthy (d : json) : bool :=
  match d with
  | JNull => false
  | JBool b => b
  | JInt n => negb (n =? 0)%Z
  | JNum r => if Req_dec_T r 0 then false else true
  | JStr s => negb (String.eqb s EmptyString)
  | JArr items => match items with [] => false | _ => true end
  | JObj fields => match fields with [] => false | _ => true end
  end.

(** The integers [float] converts: those that round to a binary64
    number, the ones of absolute value below [2^1024 - 2^970]; on the
    others [float] raises [OverflowError]. *)
Definition float_int_limit : Z := (2 ^ 1024 - 2 ^ 970)%Z.

End Py.

Import Py.

Declare Scope py_scope.
Delimit Scope py_scope with py.
Notation "x <- m ;; k" := (bind m (fun x => k))
  (at level 61, m at next level, right associativity) : py_scope.

(** ** The collaborators: geocoding and temperature *)

Module Collaborators.

(** The dictionary [{"lat": ..., "lon": ...}]. *)
Record Coordinates : Type := mkCoordinates {
  lat : R;
  lon : R
}.

(** The answers of the two services to the requests the code sends;
    [requests.get] returns a response or raises. *)
Record World : Type := mkWorld {
  nominatim_search : string -> res Response;
  tomorrow_forecast : R -> R -> res Response
}.

Section WithFloatParser.

(** [float(s)] on a string: the number read, or nothing when Python
    raises [ValueError]. *)
Variable float_of_str : string -> option R.

(** [float(v)]. *)
Definition py_float (v : json) : res R :=
  match v with
  | JInt n =>
      if (Z.abs n <? float_int_limit)%Z then Ret (IZR n)
      else Raise OverflowError
  | JNum r => Ret r
  | JBool b => Ret (if b then 1 else 0)
  | JStr s =>
      match float_of_str s with
      | Some r => Ret r
      | None => Raise ValueError
      end
  | _ => Raise TypeError
  end.

Local Open Scope py_scope.

(** Lines 24-34, the body of the [try]. *)
Definition get_coordinates_body (w : World) (city_name : string)
    : res (option Coordinates) :=
  response <- nominatim_search w (city_name ++ ", USA")%string ;;
  _ <- raise_for_status response ;;
  data <- response_json response ;;
  if truthy data then
    first <- getitem_idx data 0 ;;
    la <- getitem_str first "lat" ;;
    la' <- py_float la ;;
    second <- getitem_idx data 0 ;;
    lo <- getitem_str second "lon" ;;
    lo' <- py_float lo ;;
    Ret (Some (mkCoordinates la' lo'))
  else Ret None.

(** Lines 22-36. *)
Definition get_coordinates_from_city (w : World) (city_name : string)
    : option Coordinates :=
  try_except (get_coordinates_body w city_name) None.

(** [coords['lat']] and [coords['lon']] of line 61, where [coords] is a
    dictionary or [None]. *)
Definition subscript_coords (coords : option Coordinates) : res Coordinates :=
  match coords with
  | Some c => Ret c
  | None => Raise TypeError
  end.

(** Line 66, the expression under [float]. *)
Definition first_hourly_temperature (data : json) : res R :=
  timelines <- getitem_str data "timelines" ;;
  hourly <- getitem_str timelines "hourly" ;;
  first <- getitem_idx hourly 0 ;;
  values <- getitem_str first "values" ;;
  temperature <- getitem_str values "temperature" ;;
  py_float temperature.

(** Lines 59-69. *)
Definition fetch_tomorrow_temperature (w : World) (location : string) : res R :=
  let coords := get_coordinates_from_city w location in
  c <- subscript_coords coords ;;
  response <- tomorrow_forecast w (lat c) (lon c) ;;
  if (status_code response =? 200)%Z then
    data <- response_json response ;;
    Ret (try_except (first_hourly_temperature data) 25)
  else Ret 25.

End WithFloatParser.

End Collaborators.

Import Collaborators.

(** ** The sizing computation of the second tab *)

Module Sizing.

(** What the block under [with tab2:] leaves on the page. *)
Inductive TabOutcome : Type :=
| Idle
| Stopped (message : string)
| Sized (target required_area : R).

Definition no_city_message : string :=
  "No matching city found. Please enter a valid U.S. city name.".
Definition no_irradiance_message : string :=
  "Failed to retrieve irradiance data.".
Definition zero_yield_message : string :=
  "Irradiance data returned 0. Cannot size the system.".

(** Lines 165-166 (and 229): [total_production / 1000 * 365]. *)
Definition annual_kwh (r : ProductionResult) : R :=
  total_production r / 1000 * 365.

(** Line 226; both widgets return integers. *)
Definition target_annual_kwh (monthly_usage offset_target : Z) : R :=
  IZR monthly_usage * 12 * (IZR offset_target / 100).

(** Lines 228-229: the estimator with unit efficiency and unit area. *)
Definition base_output_per_m2 (tilt ghi_daily temperature : R) : R :=
  annual_kwh
    (calculate_daily_production (mkCalculator 1 1 tilt) ghi_daily temperature).

(** Lines 231-235: [st.error] and [st.stop] on a zero yield, the division
    otherwise. *)
Definition size_system (target base : R) : TabOutcome :=
  if Req_dec_T base 0 then Stopped zero_yield_message
  else Sized target (target / base).

(** Lines 207-235, given what the three collaborators answered: the
    coordinates, the irradiance and the temperature, which is a value or
    an exception that ends the run.  Both fetches come before the test of
    the irradiance. *)
Definition tab2 (location_sizing : string) (coords : option Coordinates)
    (ghi_daily : option R) (temperature : res R)
    (tilt monthly_usage offset_target : Z) : res TabOutcome :=
  if String.eqb location_sizing EmptyString then Ret Idle
  else
    match coords with
    | None => Ret (Stopped no_city_message)
    | Some _ =>
        bind temperature (fun temperature =>
          match ghi_daily with
          | None => Ret (Stopped no_irradiance_message)
          | Some ghi =>
              Ret (size_system
                     (target_annual_kwh monthly_usage offset_target)
                     (base_output_per_m2 (IZR tilt) ghi temperature))
          end)
    end.

End Sizing.

Import Sizing.

(** ** Sample answers of the services *)

(** Nominatim finds one place, given with numeric coordinates. *)
Definition one_place : json :=
  JArr [JObj [("lat", JNum 30.27); ("lon", JNum (- 97.74))]%string].

(** Nominatim answers 200 with an empty list: no place matches. *)
Definition world_no_match : World :=
  mkWorld (fun _ => Ret (mkResponse 200 (Some (JArr []))))
          (fun _ _ => Ret (mkResponse 200 (Some (JObj [])))).

(** The forecast service answers 200 with a body that is not JSON. *)
Definition world_bad_body : World :=
  mkWorld (fun _ => Ret (mkResponse 200 (Some one_place)))
          (fun _ _ => Ret (mkResponse 200 None)).

(** The request to the forecast service fails to connect. *)
Definition world_unreachable : World :=
  mkWorld (fun _ => Ret (mkResponse 200 (Some one_place)))
          (fun _ _ => Raise RequestException).

(** ** Vocabulary of the specification *)

(** The sum written as a right fold, independent of the order in which
    [sum] traverses the list. *)
Definition Rsum (l : list R) : R := fold_right Rplus 0 l.

(** The factor shared by the twenty-four hours. *)
Definition day_scale (c : SolarCellCalculator) (kwh temp : R) : R :=
  kwh * 1000 * area_m2 c * efficiency c
  * temp_factor temp * tilt_factor (tilt_angle c).

(** [PanelConfiguration]: efficiency in (0,1], area > 0, tilt in [0,90]. *)
Definition valid_panel (c : SolarCellCalculator) : Prop :=
  0 < efficiency c <= 1 /\ 0 < area_m2 c /\ 0 <= tilt_angle c <= 90.

(** Noon is the largest entry of the list [l]. *)
Definition noon_is_peak (l : list R) : Prop :=
  forall h : nat, (h < 24)%nat -> nth h l 0 <= nth 12 l 0.

(** ** The irradiance collaborator *)

Module Irradiance.

(** The services of [World] and the NREL solar resource endpoint, asked
    with a latitude and a longitude. *)
Record SolarWorld : Type := mkSolarWorld {
  services : World;
  nrel_solar_resource : R -> R -> res Response
}.

Section WithFloatParser.

Variable float_of_str : string -> option R.

Local Open Scope py_scope.

(** Line 50: [data["outputs"]["avg_ghi"]["annual"]]. *)
Definition annual_avg_ghi (data : json) : res json :=
  outputs <- getitem_str data "outputs" ;;
  avg_ghi <- getitem_str outputs "avg_ghi" ;;
  getitem_str avg_ghi "annual".

(** Lines 41-55.  The function hands back the value found in the answer
    as it is, or [None]; Python's [None] is written [JNull], the value a
    JSON [null] is read as. *)
Definition fetch_daily_irradiance (w : SolarWorld) (location : string)
    : res json :=
  match get_coordinates_from_city float_of_str (services w) location with
  | None => Ret JNull
  | Some c =>
      response <- nrel_solar_resource w (lat c) (lon c) ;;
      if (status_code response =? 200)%Z then
        Ret (try_except (data <- response_json response ;; annual_avg_ghi data)
                        JNull)
      else Ret JNull
  end.

End WithFloatParser.

End Irradiance.

Import Irradiance.

(** ** The summary and the verdict *)

Module Report.

Definition large_system : string :=
  "a large-scale residential or small commercial setup".
Definition large_benefit : string :=
  "significant energy savings and potential sell-back to the grid".
Definition standard_system : string := "a standard home solar system".
Definition standard_benefit : string :=
  "a strong offset to your household electricity use".
Definition small_system : string := "a small or supplemental system".
Definition small_benefit : string :=
  "a modest contribution toward reducing energy costs".

(** Lines 105-113: the pair [(system_size, benefit)]. *)
Definition classify_system (annual_kwh : R) : string * string :=
  if Rle_dec 8000 annual_kwh then (large_system, large_benefit)
  else if Rle_dec 4000 annual_kwh then (standard_system, standard_benefit)
  else (small_system, small_benefit).

(** The default of the parameter [rate_per_kwh]. *)
Definition default_rate : R := 0.15.

(** The line feed of the summary. *)
Definition nl : string := String (Ascii.ascii_of_nat 10) EmptyString.

Section WithFormat.

(** The format [:.2f] of a float. *)
Variable format_2f : R -> string.

(** Lines 103-130. *)
Definition summarize_output
    (location : string) (daily_kwh annual_kwh rate_per_kwh : R) : string :=
  let '(system_size, benefit) := classify_system annual_kwh in
  let daily_savings := daily_kwh * rate_per_kwh in
  let annual_savings := annual_kwh * rate_per_kwh in
  String.concat EmptyString
    [ "Location: "; location; nl;
      "Estimated Production: "; format_2f daily_kwh; " kWh/day | ";
      format_2f annual_kwh; " kWh/year"; nl;
      "System Type: "; system_size; nl;
      "Benefits: "; benefit; "."; nl;
      "Estimated Savings: $"; format_2f daily_savings;
      " per day, or approximately $"; format_2f annual_savings;
      " per year."; nl; nl;
      "To maximize your system's performance, ensure the panels are installed with optimal tilt, ";
      "kept clean, and inspected regularly." ]%string.

End WithFormat.

(** Lines 169-174: the call that shows the one-line evaluation. *)
Inductive Verdict : Type :=
| StSuccess
| StInfo
| StWarning.

Definition quick_evaluation (annual_kwh : R) : Verdict :=
  if Rle_dec 3000 annual_kwh then StSuccess
  else if Rle_dec 900 annual_kwh then StInfo
  else StWarning.

End Report.

Import Report.

(** ** The first and the third tab *)

Module Tabs.

(** What a tab leaves on the page: nothing when no city is typed, an
    error followed by [st.stop], or the figures it shows. *)
Inductive Page (A : Type) : Type :=
| PIdle
| PStopped (message : string)
| PShown (figures : A).

Arguments PIdle {A}.
Arguments PStopped {A} message.
Arguments PShown {A} figures.

(** The figures of the first tab, before they are formatted. *)
Record Performance : Type := mkPerformance {
  verdict : Verdict;
  evaluation : option string;
  shown_total_wh : R;
  shown_daily_kwh : R;
  shown_annual_kwh : R;
  plotted : list R
}.

(** The figures of the third tab, before they are formatted. *)
Record Impact : Type := mkImpact {
  co2_saved_kg : R;
  trees_planted : R;
  cars_removed : R
}.

(** The panel built from the widgets: the efficiency slider gives whole
    per cents, the tilt slider whole degrees. *)
Definition panel_of_widgets (efficiency_pct : Z) (area : R) (tilt : Z)
    : SolarCellCalculator :=
  mkCalculator (IZR efficiency_pct / 100) area (IZR tilt).

(** The bounds of the three widgets (lines 150-152 and 263-265). *)
Definition widget_ranges (efficiency_pct : Z) (area : R) (tilt : Z) : Prop :=
  (5 <= efficiency_pct <= 30)%Z /\ 0.1 <= area /\ (0 <= tilt <= 90)%Z.

(** Lines 273-276. *)
Definition impact_of (annual : R) : Impact :=
  let emissions_factor := 0.4 in
  let co2 := annual * emissions_factor in
  mkImpact co2 (co2 / 21.77) (co2 / 4600).

Section WithFormat.

Variable format_2f : R -> string.

(** Lines 140-198, given what the collaborators answered.  Both fetches
    come before the test of the irradiance. *)
Definition tab1 (location : string) (coords : option Coordinates)
    (efficiency_pct : Z) (area : R) (tilt : Z)
    (ghi_daily : option R) (temperature : res R) (show_details : bool)
    : res (Page Performance) :=
  if String.eqb location EmptyString then Ret PIdle
  else
    match coords with
    | None => Ret (PStopped no_city_message)
    | Some _ =>
        bind temperature (fun temperature =>
          match ghi_daily with
          | None => Ret (PStopped no_irradiance_message)
          | Some ghi =>
              let calculator := panel_of_widgets efficiency_pct area tilt in
              let result :=
                calculate_daily_production calculator ghi temperature in
              let daily_kwh := total_production result / 1000 in
              let annual_kwh := daily_kwh * 365 in
              Ret (PShown
                     (mkPerformance
                        (quick_evaluation annual_kwh)
                        (if show_details
                         then Some (summarize_output format_2f location
                                      daily_kwh annual_kwh default_rate)
                         else None)
                        (total_production result)
                        daily_kwh annual_kwh
                        (hourly_production result)))
          end)
    end.

End WithFormat.

(** Lines 250-280, given what the collaborators answered.  Here the
    irradiance is tested before the temperature is fetched. *)
Definition tab3 (location_env : string) (coords : option Coordinates)
    (ghi_daily : option R) (temperature : res R)
    (efficiency_pct : Z) (area : R) (tilt : Z) : res (Page Impact) :=
  if String.eqb location_env EmptyString then Ret PIdle
  else
    match coords with
    | None => Ret (PStopped no_city_message)
    | Some _ =>
        match ghi_daily with
        | None => Ret (PStopped no_irradiance_message)
        | Some ghi =>
            bind temperature (fun temperature =>
              let calculator := panel_of_widgets efficiency_pct area tilt in
              let result :=
                calculate_daily_production calculator ghi temperature in
              let daily_kwh := total_production result / 1000 in
              let annual_kwh := daily_kwh * 365 in
              Ret (PShown (impact_of annual_kwh)))
        end
    end.

End Tabs.

Import Tabs.

(** ** More sample answers *)

(** A forecast in the shape line 66 reads: the temperature of the first
    hourly entry, followed by other entries. *)
Definition forecast_body (temperature : json) (later : list json) : json :=
  JObj [("timelines",
         JObj [("hourly",
                JArr (JObj [("values",
                             JObj [("temperature", temperature)])] :: later))])
       ]%string.

(** A solar resource answer in the shape line 50 reads. *)
Definition solar_resource_body (annual : json) : json :=
  JObj [("outputs", JObj [("avg_ghi", JObj [("annual", annual)])])]%string.

(** Nominatim finds one place and the forecast service answers 200 with a
    forecast of 21.5 degrees C. *)
Definition world_forecast : World :=
  mkWorld (fun _ => Ret (mkResponse 200 (Some one_place)))
          (fun _ _ => Ret (mkResponse 200 (Some (forecast_body (JNum 21.5) [])))).

(** The same services and an NREL endpoint that answers 200 with an
    annual average of 5.1 kWh/m2/day. *)
Definition solar_world_sample : SolarWorld :=
  mkSolarWorld world_forecast
    (fun _ _ => Ret (mkResponse 200 (Some (solar_resource_body (JNum 5.1))))).

(** No place matches; the NREL endpoint is never asked. *)
Definition solar_world_no_match : SolarWorld :=
  mkSolarWorld world_no_match (fun _ _ => Raise RequestException).

(** ** Sums of lists of reals *)

Section Sums.

Lemma fold_left_Rplus_acc (l : list R) (a : R) :
  fold_left Rplus l a = a + Rsum l.
Proof.
  revert a; induction l as [|x l IH]; intros a; simpl.
  - lra.
  - rewrite IH. lra.
Qed.

Lemma py_sum_Rsum (l : list R) : py_sum l = Rsum l.
Proof. unfold py_sum. rewrite fold_left_Rplus_acc. lra. Qed.

Lemma Rsum_map_scale (c : R) (l : list R) :
  Rsum (map (fun x => c * x) l) = c * Rsum l.
Proof.
  induction l as [|x l IH]; simpl.
  - lra.
  - rewrite IH. lra.
Qed.

Lemma Rsum_map_div (d : R) (l : list R) :
  Rsum (map (fun x => x / d) l) = Rsum l / d.
Proof.
  induction l as [|x l IH]; simpl.
  - unfold Rdiv. lra.
  - rewrite IH. unfold Rdiv. lra.
Qed.

Lemma Rsum_pos (l : list R) :
  l <> [] -> Forall (fun x => 0 < x) l -> 0 < Rsum l.
Proof.
  intros Hne Hall. induction Hall as [|x l Hx Hall IH].
  - congruence.
  - simpl. destruct l as [|y l].
    + simpl. lra.
    + assert (0 < Rsum (y :: l)) by (apply IH; discriminate). lra.
Qed.

End Sums.

(** Reading an entry of a mapped list, whatever the default values. *)
Lemma nth_map_lt {A B : Type} (f : A -> B) (l : list A) (n : nat) (dB : B) (dA : A) :
  (n < length l)%nat -> nth n (map f l) dB = f (nth n l dA).
Proof.
  revert n; induction l as [|x l IH]; intros n Hn; simpl in *.
  - lia.
  - destruct n as [|n]; [reflexivity | apply IH; lia].
Qed.

(** ** The hourly profile *)

Section Profile.

Lemma gauss_weight_pos (h : Z) : 0 < gauss_weight h.
Proof. unfold gauss_weight. apply exp_pos. Qed.

Lemma profile_raw_length : length profile_raw = 24%nat.
Proof. reflexivity. Qed.

Lemma profile_length : length profile = 24%nat.
Proof. reflexivity. Qed.

Lemma profile_raw_pos : Forall (fun x => 0 < x) profile_raw.
Proof.
  unfold profile_raw. apply Forall_forall. intros x Hx.
  apply in_map_iff in Hx. destruct Hx as [h [<- _]]. apply gauss_weight_pos.
Qed.

Lemma profile_raw_sum_pos : 0 < py_sum profile_raw.
Proof.
  rewrite py_sum_Rsum. apply Rsum_pos.
  - intros H. apply (f_equal (@length R)) in H. discriminate H.
  - apply profile_raw_pos.
Qed.

(** After line 88 the weights add up to one. *)
Lemma profile_sum_one : py_sum profile = 1.
Proof.
  unfold profile. rewrite py_sum_Rsum, Rsum_map_div, <- py_sum_Rsum.
  pose proof profile_raw_sum_pos. field. lra.
Qed.

Lemma profile_nonneg : Forall (fun x => 0 <= x) profile.
Proof.
  unfold profile. apply Forall_forall. intros x Hx.
  apply in_map_iff in Hx. destruct Hx as [w [<- Hw]].
  pose proof profile_raw_sum_pos as Hs.
  pose proof (proj1 (Forall_forall _ _) profile_raw_pos w Hw) as Hpos.
  simpl in Hpos. apply Rlt_le. apply Rdiv_lt_0_compat; assumption.
Qed.

(** Entry [h] of the normalised profile. *)
Lemma profile_nth (h : nat) :
  (h < 24)%nat ->
  nth h profile 0 = gauss_weight (Z.of_nat h) / py_sum profile_raw.
Proof.
  intros Hh. unfold profile.
  rewrite (nth_map_lt _ _ _ _ 0) by exact Hh. f_equal.
  unfold profile_raw, arange.
  rewrite (nth_map_lt _ _ _ _ 0%Z) by (rewrite length_map, length_seq; exact Hh).
  rewrite (nth_map_lt _ _ _ _ 0%nat) by (rewrite length_seq; exact Hh).
  rewrite seq_nth by exact Hh. reflexivity.
Qed.

End Profile.

(** ** The result of [calculate_daily_production] in closed form *)

Section ClosedForm.

Variable self : SolarCellCalculator.
Variables daily_irradiance_kwh temperature_C : R.

Let result := calculate_daily_production self daily_irradiance_kwh temperature_C.

Lemma hourly_production_eq :
  hourly_production result =
  map (fun w => day_scale self daily_irradiance_kwh temperature_C * w) profile.
Proof.
  unfold result, calculate_daily_production; cbn [hourly_production].
  rewrite map_map. apply map_ext. intros w. unfold day_scale. ring.
Qed.

Lemma hourly_production_length : length (hourly_production result) = 24%nat.
Proof. reflexivity. Qed.

Lemma hourly_production_nth (h : nat) :
  (h < 24)%nat ->
  nth h (hourly_production result) 0 =
  day_scale self daily_irradiance_kwh temperature_C * nth h profile 0.
Proof.
  intros Hh. rewrite hourly_production_eq.
  apply nth_map_lt. rewrite profile_length. exact Hh.
Qed.

Lemma total_production_eq :
  total_production result = day_scale self daily_irradiance_kwh temperature_C.
Proof.
  assert (E : total_production result = py_sum (hourly_production result))
    by reflexivity.
  rewrite E, hourly_production_eq, py_sum_Rsum, Rsum_map_scale,
    <- py_sum_Rsum, profile_sum_one.
  ring.
Qed.

End ClosedForm.

(** ** The two factors *)

Section Factors.

Lemma max0_nonneg (x : R) : 0 <= max0 x.
Proof. unfold max0. destruct (Rlt_dec 0 x); lra. Qed.

Lemma max0_of_nonpos (x : R) : x <= 0 -> max0 x = 0.
Proof. intros Hx. unfold max0. destruct (Rlt_dec 0 x); lra. Qed.

Lemma max0_of_nonneg (x : R) : 0 <= x -> max0 x = x.
Proof. intros Hx. unfold max0. destruct (Rlt_dec 0 x); lra. Qed.

Lemma max0_mono (x y : R) : x <= y -> max0 x <= max0 y.
Proof.
  intros Hxy. unfold max0.
  destruct (Rlt_dec 0 x), (Rlt_dec 0 y); lra.
Qed.

Lemma temp_factor_cool (t : R) : t <= 25 -> temp_factor t = 1.
Proof.
  intros Ht. unfold temp_factor. rewrite max0_of_nonpos by lra. lra.
Qed.

Lemma temp_factor_hot (t : R) : 25 <= t -> temp_factor t = 1 - 0.004 * (t - 25).
Proof.
  intros Ht. unfold temp_factor. rewrite max0_of_nonneg by lra. reflexivity.
Qed.

Lemma temp_factor_antitone (t1 t2 : R) :
  t1 <= t2 -> temp_factor t2 <= temp_factor t1.
Proof.
  intros H. unfold temp_factor.
  pose proof (max0_mono (t1 - 25) (t2 - 25)). lra.
Qed.

Lemma temp_factor_nonneg (t : R) : t <= 275 -> 0 <= temp_factor t.
Proof.
  intros Ht. destruct (Rle_dec t 25) as [Hc|Hc].
  - rewrite temp_factor_cool by exact Hc. lra.
  - rewrite temp_factor_hot by lra. lra.
Qed.

Lemma tilt_factor_bounds (d : R) : 0 <= tilt_factor d <= 1.
Proof.
  unfold tilt_factor. pose proof (SIN_bound (radians d)). lra.
Qed.

Lemma radians_30 : radians 30 = PI / 6.
Proof. unfold radians. lra. Qed.

Lemma radians_90 : radians 90 = PI / 2.
Proof. unfold radians. lra. Qed.

Lemma tilt_factor_30 : tilt_factor 30 = 0.75.
Proof. unfold tilt_factor. rewrite radians_30, sin_PI6. lra. Qed.

End Factors.

Lemma day_scale_nonneg (c : SolarCellCalculator) (kwh temp : R) :
  valid_panel c -> 0 <= kwh -> temp <= 275 -> 0 <= day_scale c kwh temp.
Proof.
  intros [[He _] [Ha _]] Hk Ht. unfold day_scale.
  pose proof (temp_factor_nonneg temp Ht) as Htf.
  pose proof (tilt_factor_bounds (tilt_angle c)) as [Htl _].
  repeat apply Rmult_le_pos; lra.
Qed.

(** The bound 275 is sharp: above it, a valid panel under a positive
    irradiance has a negative factor for every hour. *)
Lemma day_scale_neg_above_275 (c : SolarCellCalculator) (kwh temp : R) :
  valid_panel c -> 0 < kwh -> 275 < temp -> day_scale c kwh temp < 0.
Proof.
  intros [[He _] [Ha [Ht0 Ht90]]] Hk Ht. unfold day_scale.
  rewrite temp_factor_hot by lra.
  assert (Hsin : 0 <= sin (radians (tilt_angle c))).
  { pose proof PI_RGT_0 as Hpi. apply sin_ge_0; unfold radians; nra. }
  assert (Htl : 0 < tilt_factor (tilt_angle c)) by (unfold tilt_factor; lra).
  assert (Hpos : 0 < kwh * 1000 * area_m2 c * efficiency c)
    by (repeat apply Rmult_lt_0_compat; lra).
  set (k := kwh * 1000 * area_m2 c * efficiency c) in *.
  replace (k * (1 - 0.004 * (temp - 25)) * tilt_factor (tilt_angle c))
    with (- ((k * tilt_factor (tilt_angle c)) * (0.004 * (temp - 25) - 1)))
    by ring.
  apply Ropp_lt_gt_0_contravar, Rlt_gt.
  apply Rmult_lt_0_compat; [apply Rmult_lt_0_compat; assumption | lra].
Qed.

(** The part of [day_scale] that does not depend on the temperature. *)
Lemma day_scale_split (c : SolarCellCalculator) (kwh temp : R) :
  day_scale c kwh temp =
  (kwh * 1000 * area_m2 c * efficiency c * tilt_factor (tilt_angle c))
  * temp_factor temp.
Proof. unfold day_scale. ring. Qed.

(** ** Properties of the estimator *)

(** C1. With irradiance 5.0 kWh/m2, 25 degrees C, efficiency 0.20, area
    2.0 m2 and tilt 30 degrees, the temperature factor is 1, the tilt
    factor is 0.75, the irradiance is 5000 Wh, the normalised weights sum
    to 1 and the total production is 1500 Wh (so within 1e-6 of 1500). *)
Theorem C1_concrete_scenario :
  let r := calculate_daily_production (mkCalculator 0.20 2.0 30) 5.0 25 in
  temp_factor 25 = 1.0 /\
  tilt_factor 30 = 0.75 /\
  5.0 * 1000 = 5000 /\
  py_sum profile = 1 /\
  total_production r = 1500.0 /\
  Rabs (total_production r - 1500.0) <= 1e-6.
Proof.
  intros r.
  assert (Htot : total_production r = 1500.0).
  { unfold r. rewrite total_production_eq. unfold day_scale.
    cbn [area_m2 efficiency tilt_angle].
    rewrite tilt_factor_30, temp_factor_cool by lra. lra. }
  repeat split.
  - rewrite temp_factor_cool by lra. lra.
  - exact tilt_factor_30.
  - lra.
  - exact profile_sum_one.
  - exact Htot.
  - rewrite Htot. replace (1500.0 - 1500.0) with 0 by lra.
    rewrite Rabs_R0. lra.
Qed.

(** C2. For every panel and every environmental input the hourly list has
    exactly 24 entries, the total is the sum of these entries, and the
    entries are the 24 weights, which sum to 1, scaled by the energy of
    the day. *)
Theorem C2_total_is_sum_of_24 (self : SolarCellCalculator) (kwh temp : R) :
  let r := calculate_daily_production self kwh temp in
  length (hourly_production r) = 24%nat /\
  total_production r = Rsum (hourly_production r) /\
  Rsum profile = 1 /\
  hourly_production r = map (fun w => day_scale self kwh temp * w) profile /\
  total_production r = day_scale self kwh temp.
Proof.
  intros r. repeat split.
  - apply py_sum_Rsum.
  - rewrite <- py_sum_Rsum. exact profile_sum_one.
  - apply hourly_production_eq.
  - apply total_production_eq.
Qed.

(** The weight of noon is the largest weight. *)
Lemma gauss_weight_noon : gauss_weight 12 = 1.
Proof.
  unfold gauss_weight. replace (12 - 12)%Z with 0%Z by reflexivity.
  replace (- 0.5 * (0 / 4) ^ 2) with 0 by (simpl; lra).
  apply exp_0.
Qed.

Lemma gauss_weight_le_noon (h : Z) : gauss_weight h <= gauss_weight 12.
Proof.
  rewrite gauss_weight_noon. unfold gauss_weight. rewrite <- exp_0.
  pose proof (pow2_ge_0 (IZR (h - 12) / 4)) as Hsq.
  destruct (Req_dec (- 0.5 * (IZR (h - 12) / 4) ^ 2) 0) as [E|E].
  - rewrite E. apply Rle_refl.
  - apply Rlt_le, exp_increasing. lra.
Qed.

Lemma gauss_weight_midnight_lt_noon : gauss_weight 0 < gauss_weight 12.
Proof.
  rewrite gauss_weight_noon. unfold gauss_weight. rewrite <- exp_0.
  apply exp_increasing. replace (0 - 12)%Z with (-12)%Z by reflexivity.
  simpl. lra.
Qed.

(** The weight depends on the distance to noon only. *)
Lemma gauss_weight_sym (k : Z) : gauss_weight (12 - k) = gauss_weight (12 + k).
Proof.
  unfold gauss_weight. f_equal.
  replace (12 - k - 12)%Z with (- k)%Z by lia.
  replace (12 + k - 12)%Z with k by lia.
  rewrite opp_IZR. simpl. field.
Qed.

Lemma profile_le_noon (h : nat) :
  (h < 24)%nat -> nth h profile 0 <= nth 12 profile 0.
Proof.
  intros Hh. rewrite !profile_nth by lia.
  pose proof profile_raw_sum_pos as Hs.
  pose proof (gauss_weight_le_noon (Z.of_nat h)) as Hw.
  change (Z.of_nat 12) with 12%Z.
  unfold Rdiv. apply Rmult_le_compat_r; [|exact Hw].
  apply Rlt_le, Rinv_0_lt_compat, Hs.
Qed.

Lemma profile_midnight_lt_noon : nth 0 profile 0 < nth 12 profile 0.
Proof.
  rewrite !profile_nth by lia.
  pose proof profile_raw_sum_pos as Hs.
  pose proof gauss_weight_midnight_lt_noon as Hw.
  change (Z.of_nat 12) with 12%Z. change (Z.of_nat 0) with 0%Z.
  unfold Rdiv. apply Rmult_lt_compat_r; [|exact Hw].
  apply Rinv_0_lt_compat, Hs.
Qed.

Lemma profile_noon_pos : 0 < nth 12 profile 0.
Proof.
  rewrite profile_nth by lia.
  apply Rdiv_lt_0_compat; [apply gauss_weight_pos | apply profile_raw_sum_pos].
Qed.

(** An input far above any ambient temperature: the derating factor
    of line 83 has no lower clamp and is negative there. *)
Lemma temp_factor_300 : temp_factor 300 = - 0.1.
Proof. rewrite temp_factor_hot by lra. lra. Qed.

Lemma day_scale_300 : day_scale (mkCalculator 0.20 2.0 30) 5.0 300 = - 150.
Proof.
  unfold day_scale. cbn [area_m2 efficiency tilt_angle].
  rewrite temp_factor_300, tilt_factor_30. lra.
Qed.

Lemma valid_panel_sample : valid_panel (mkCalculator 0.20 2.0 30).
Proof. unfold valid_panel; cbn [area_m2 efficiency tilt_angle]. lra. Qed.

(** C3, as written, fails: at 300 degrees C, with a valid panel and a
    valid irradiance, the noon entry is negative. *)
Lemma C3_counterexample :
  let c := mkCalculator 0.20 2.0 30 in
  valid_panel c /\ 0 <= 5.0 /\
  ~ Forall (fun x => 0 <= x)
      (hourly_production (calculate_daily_production c 5.0 300)).
Proof.
  intros c. split; [exact valid_panel_sample | split; [lra |]].
  intros Hall. rewrite Forall_forall in Hall.
  assert (Hneg : nth 12 (hourly_production (calculate_daily_production c 5.0 300)) 0 < 0).
  { rewrite hourly_production_nth by lia. unfold c. rewrite day_scale_300.
    pose proof profile_noon_pos. lra. }
  assert (Hin : In (nth 12 (hourly_production (calculate_daily_production c 5.0 300)) 0)
                   (hourly_production (calculate_daily_production c 5.0 300))).
  { apply nth_In. rewrite hourly_production_length. lia. }
  apply Hall in Hin. lra.
Qed.

(** C3, amended. For every valid panel, every irradiance >= 0 and every
    temperature of at most 275 degrees C, the hourly list has 24 entries
    and each of them is non-negative. *)
Theorem C3_hourly_nonneg (self : SolarCellCalculator) (kwh temp : R) :
  valid_panel self -> 0 <= kwh -> temp <= 275 ->
  let r := calculate_daily_production self kwh temp in
  length (hourly_production r) = 24%nat /\
  Forall (fun x => 0 <= x) (hourly_production r).
Proof.
  intros Hv Hk Ht r. split; [reflexivity|].
  unfold r. rewrite hourly_production_eq.
  pose proof (day_scale_nonneg self kwh temp Hv Hk Ht) as Hs.
  apply Forall_forall. intros x Hx. apply in_map_iff in Hx.
  destruct Hx as [w [<- Hw]].
  pose proof (proj1 (Forall_forall _ _) profile_nonneg w Hw) as Hw0.
  simpl in Hw0. apply Rmult_le_pos; assumption.
Qed.

Lemma C3_hourly_nonneg_witness :
  let r := calculate_daily_production (mkCalculator 0.20 2.0 30) 5.0 40 in
  length (hourly_production r) = 24%nat /\
  Forall (fun x => 0 <= x) (hourly_production r).
Proof.
  apply (C3_hourly_nonneg (mkCalculator 0.20 2.0 30) 5.0 40).
  - unfold valid_panel; cbn [area_m2 efficiency tilt_angle]; lra.
  - lra.
  - lra.
Defined.

(** C4. For a valid panel and an irradiance >= 0, the total does not
    increase when the temperature increases above 25 degrees C, and at
    every temperature of at most 25 degrees C it is the total at 25. *)
Theorem C4_temperature_monotone (self : SolarCellCalculator) (kwh : R) :
  valid_panel self -> 0 <= kwh ->
  (forall t1 t2 : R, 25 <= t1 -> t1 <= t2 ->
     total_production (calculate_daily_production self kwh t2) <=
     total_production (calculate_daily_production self kwh t1)) /\
  (forall t : R, t <= 25 ->
     total_production (calculate_daily_production self kwh t) =
     total_production (calculate_daily_production self kwh 25)).
Proof.
  intros [[He _] [Ha _]] Hk. split.
  - intros t1 t2 _ H12. rewrite !total_production_eq, !day_scale_split.
    apply Rmult_le_compat_l.
    + pose proof (tilt_factor_bounds (tilt_angle self)) as [Htl _].
      repeat apply Rmult_le_pos; lra.
    + apply temp_factor_antitone, H12.
  - intros t Ht. rewrite !total_production_eq, !day_scale_split.
    rewrite (temp_factor_cool t Ht), (temp_factor_cool 25) by lra.
    reflexivity.
Qed.

Lemma C4_temperature_monotone_witness :
  total_production (calculate_daily_production (mkCalculator 0.20 2.0 30) 5.0 40) <=
  total_production (calculate_daily_production (mkCalculator 0.20 2.0 30) 5.0 30) /\
  total_production (calculate_daily_production (mkCalculator 0.20 2.0 30) 5.0 10) =
  total_production (calculate_daily_production (mkCalculator 0.20 2.0 30) 5.0 25).
Proof.
  destruct (C4_temperature_monotone (mkCalculator 0.20 2.0 30) 5.0) as [Hmono Hflat].
  - unfold valid_panel; cbn [area_m2 efficiency tilt_angle]; lra.
  - lra.
  - split; [apply Hmono; lra | apply Hflat; lra].
Defined.

(** C5, as written, fails: at 300 degrees C every entry is negative and
    the noon entry is the smallest one, below the entry of hour 0. *)
Lemma C5_counterexample :
  let c := mkCalculator 0.20 2.0 30 in
  valid_panel c /\ 0 < 5.0 /\
  ~ noon_is_peak (hourly_production (calculate_daily_production c 5.0 300)).
Proof.
  intros c. split; [exact valid_panel_sample | split; [lra |]].
  intros Hpeak. specialize (Hpeak 0%nat ltac:(lia)).
  rewrite !hourly_production_nth in Hpeak by lia.
  unfold c in Hpeak. rewrite day_scale_300 in Hpeak.
  pose proof profile_midnight_lt_noon. lra.
Qed.

(** C5, amended. For every valid panel, every positive irradiance and
    every temperature of at most 275 degrees C, the hourly list has 24
    entries and the entry of hour 12 is the maximum of them. *)
Theorem C5_noon_is_peak (self : SolarCellCalculator) (kwh temp : R) :
  valid_panel self -> 0 < kwh -> temp <= 275 ->
  let r := calculate_daily_production self kwh temp in
  length (hourly_production r) = 24%nat /\
  noon_is_peak (hourly_production r).
Proof.
  intros Hv Hk Ht r. split; [reflexivity|]. unfold r. intros h Hh.
  rewrite !hourly_production_nth by lia.
  apply Rmult_le_compat_l.
  - apply day_scale_nonneg; [exact Hv | lra | exact Ht].
  - apply profile_le_noon, Hh.
Qed.

Lemma C5_noon_is_peak_witness :
  let r := calculate_daily_production (mkCalculator 0.20 2.0 30) 5.0 40 in
  length (hourly_production r) = 24%nat /\
  noon_is_peak (hourly_production r).
Proof.
  apply (C5_noon_is_peak (mkCalculator 0.20 2.0 30) 5.0 40).
  - unfold valid_panel; cbn [area_m2 efficiency tilt_angle]; lra.
  - lra.
  - lra.
Defined.

(** C6. The tilt factor is 0.5 at 0 degrees, 1.0 at 90 degrees and
    strictly increasing on [0, 90]. *)
Theorem C6_tilt_factor :
  tilt_factor 0 = 0.5 /\
  tilt_factor 90 = 1.0 /\
  (forall a b : R, 0 <= a -> a < b -> b <= 90 -> tilt_factor a < tilt_factor b).
Proof.
  split; [|split].
  - unfold tilt_factor, radians. rewrite Rmult_0_l, sin_0. lra.
  - unfold tilt_factor. rewrite radians_90, sin_PI2. lra.
  - intros a b Ha Hab Hb. unfold tilt_factor.
    pose proof PI_RGT_0 as Hpi.
    assert (Hinc : sin (radians a) < sin (radians b)).
    { unfold radians. apply sin_increasing_1; nra. }
    lra.
Qed.

Lemma C6_tilt_factor_witness :
  tilt_factor 0 = 0.5 /\ tilt_factor 90 = 1.0 /\ tilt_factor 30 < tilt_factor 60.
Proof.
  destruct C6_tilt_factor as [H0 [H90 Hinc]].
  split; [exact H0 | split; [exact H90 |]].
  apply Hinc; lra.
Defined.

(** C10. The hourly profile is symmetric about noon: for every input the
    hourly list has 24 entries, and for every k in 1..11 the entries of
    hours 12 - k and 12 + k, both in the list, are equal. *)
Theorem C10_symmetric_about_noon
    (self : SolarCellCalculator) (kwh temp : R) (k : nat) :
  (1 <= k <= 11)%nat ->
  let r := calculate_daily_production self kwh temp in
  length (hourly_production r) = 24%nat /\
  exists x : R,
    nth_error (hourly_production r) (12 - k) = Some x /\
    nth_error (hourly_production r) (12 + k) = Some x.
Proof.
  intros Hk r. split; [reflexivity|].
  assert (Hnth : forall h, (h < 24)%nat ->
            nth_error (hourly_production r) h
            = Some (nth h (hourly_production r) 0)).
  { intros h Hh. apply nth_error_nth'. exact Hh. }
  exists (nth (12 - k) (hourly_production r) 0).
  split; [apply Hnth; lia|].
  rewrite Hnth by lia. f_equal. unfold r.
  rewrite !hourly_production_nth by lia.
  rewrite !profile_nth by lia.
  replace (Z.of_nat (12 - k)) with (12 - Z.of_nat k)%Z by lia.
  replace (Z.of_nat (12 + k)) with (12 + Z.of_nat k)%Z by lia.
  rewrite gauss_weight_sym. reflexivity.
Qed.

Lemma C10_symmetric_about_noon_witness :
  let r := calculate_daily_production (mkCalculator 0.20 2.0 30) 5.0 25 in
  length (hourly_production r) = 24%nat /\
  exists x : R,
    nth_error (hourly_production r) (12 - 3) = Some x /\
    nth_error (hourly_production r) (12 + 3) = Some x.
Proof.
  apply (C10_symmetric_about_noon (mkCalculator 0.20 2.0 30) 5.0 25 3). lia.
Defined.

(** ** Properties of the sizing computation *)

Section SizingFacts.

Lemma annual_kwh_eq (c : SolarCellCalculator) (ghi temp : R) :
  annual_kwh (calculate_daily_production c ghi temp) =
  day_scale c ghi temp / 1000 * 365.
Proof. unfold annual_kwh. rewrite total_production_eq. reflexivity. Qed.

(** The annual output is linear in the area. *)
Lemma annual_kwh_unit_panel (a tilt ghi temp : R) :
  annual_kwh (calculate_daily_production (mkCalculator 1 a tilt) ghi temp) =
  a * base_output_per_m2 tilt ghi temp.
Proof.
  unfold base_output_per_m2. rewrite !annual_kwh_eq. unfold day_scale.
  cbn [area_m2 efficiency tilt_angle]. field.
Qed.

Lemma size_system_zero (target : R) :
  size_system target 0 = Stopped zero_yield_message.
Proof.
  unfold size_system. destruct (Req_dec_T 0 0) as [_|Hne]; [reflexivity|].
  exfalso; apply Hne; reflexivity.
Qed.

Lemma size_system_nonzero (target base : R) :
  base <> 0 -> size_system target base = Sized target (target / base).
Proof.
  intros Hb. unfold size_system.
  destruct (Req_dec_T base 0) as [E|_]; [contradiction | reflexivity].
Qed.

Lemma base_output_zero_irradiance (tilt temp : R) :
  base_output_per_m2 tilt 0 temp = 0.
Proof.
  unfold base_output_per_m2. rewrite annual_kwh_eq. unfold day_scale.
  cbn [area_m2 efficiency tilt_angle]. field.
Qed.

Lemma base_output_sample : base_output_per_m2 30 5 25 = 1368.75.
Proof.
  unfold base_output_per_m2. rewrite annual_kwh_eq. unfold day_scale.
  cbn [area_m2 efficiency tilt_angle].
  rewrite tilt_factor_30, temp_factor_cool by lra. lra.
Qed.

End SizingFacts.

(** C7. When the annual yield Y of one square metre (the estimator run
    with efficiency 1 and area 1) is positive, the sizing step returns the
    area T / Y for every target T, and the estimator run again with the
    same irradiance, temperature and tilt, efficiency 1 and that area
    gives the annual output T. *)
Theorem C7_sizing_round_trip (tilt ghi temp T : R) :
  let Y := base_output_per_m2 tilt ghi temp in
  0 < Y ->
  size_system T Y = Sized T (T / Y) /\
  annual_kwh
    (calculate_daily_production (mkCalculator 1 (T / Y) tilt) ghi temp) = T.
Proof.
  intros Y HY. split.
  - apply size_system_nonzero. lra.
  - rewrite annual_kwh_unit_panel. fold Y. field. lra.
Qed.

Lemma C7_sizing_round_trip_witness :
  size_system 8640 (base_output_per_m2 30 5 25) =
    Sized 8640 (8640 / base_output_per_m2 30 5 25) /\
  annual_kwh
    (calculate_daily_production
       (mkCalculator 1 (8640 / base_output_per_m2 30 5 25) 30) 5 25) = 8640.
Proof.
  apply (C7_sizing_round_trip 30 5 25 8640).
  rewrite base_output_sample. lra.
Defined.

(** C8. Once a city is given, is found, and irradiance and temperature
    are fetched: when the annual yield of one square metre is 0 the tab
    shows the sizing error and stops, without an area; for every other
    yield it divides the target by the yield. *)
Theorem C8_zero_yield_reported
    (location : string) (c : Coordinates) (ghi t : R)
    (tilt monthly_usage offset_target : Z) :
  location <> EmptyString ->
  let base := base_output_per_m2 (IZR tilt) ghi t in
  let target := target_annual_kwh monthly_usage offset_target in
  (base = 0 ->
   tab2 location (Some c) (Some ghi) (Ret t) tilt monthly_usage offset_target
   = Ret (Stopped zero_yield_message)) /\
  (base <> 0 ->
   tab2 location (Some c) (Some ghi) (Ret t) tilt monthly_usage offset_target
   = Ret (Sized target (target / base))).
Proof.
  intros Hloc base target.
  assert (Hrun :
    tab2 location (Some c) (Some ghi) (Ret t) tilt monthly_usage offset_target
    = Ret (size_system target base)).
  { unfold tab2. destruct (String.eqb_spec location EmptyString) as [E|_].
    - contradiction.
    - reflexivity. }
  split; intros Hb; rewrite Hrun; f_equal.
  - rewrite Hb. apply size_system_zero.
  - apply size_system_nonzero, Hb.
Qed.

Lemma C8_zero_yield_reported_witness :
  tab2 "Austin" (Some (mkCoordinates 30.27 (- 97.74))) (Some 0) (Ret 25) 30 900 80
  = Ret (Stopped zero_yield_message) /\
  tab2 "Austin" (Some (mkCoordinates 30.27 (- 97.74))) (Some 5) (Ret 25) 30 900 80
  = Ret (Sized (target_annual_kwh 900 80)
               (target_annual_kwh 900 80 / base_output_per_m2 30 5 25)).
Proof.
  split.
  - apply (C8_zero_yield_reported "Austin" (mkCoordinates 30.27 (- 97.74))
             0 25 30 900 80).
    + discriminate.
    + apply base_output_zero_irradiance.
  - apply (C8_zero_yield_reported "Austin" (mkCoordinates 30.27 (- 97.74))
             5 25 30 900 80).
    + discriminate.
    + rewrite base_output_sample. lra.
Defined.

(** ** The temperature collaborator *)

Section TemperatureFacts.

Variable float_of_str : string -> option R.

Lemma get_coordinates_no_match (city : string) :
  get_coordinates_from_city float_of_str world_no_match city = None.
Proof. reflexivity. Qed.

Lemma get_coordinates_one_place (w : World) (city : string) :
  nominatim_search w (city ++ ", USA")%string
  = Ret (mkResponse 200 (Some one_place)) ->
  get_coordinates_from_city float_of_str w city
  = Some (mkCoordinates 30.27 (- 97.74)).
Proof.
  intros Hreply. unfold get_coordinates_from_city, get_coordinates_body.
  rewrite Hreply. reflexivity.
Qed.

(** Whenever geocoding fails, line 61 subscripts [None]. *)
Lemma fetch_temperature_without_coordinates (w : World) (location : string) :
  get_coordinates_from_city float_of_str w location = None ->
  fetch_tomorrow_temperature float_of_str w location = Raise TypeError.
Proof.
  intros Hnone. unfold fetch_tomorrow_temperature. rewrite Hnone. reflexivity.
Qed.

(** Line 64 is outside the [try]: a 200 answer that is not JSON raises. *)
Lemma fetch_temperature_bad_body (location : string) :
  fetch_tomorrow_temperature float_of_str world_bad_body location
  = Raise JSONDecodeError.
Proof. reflexivity. Qed.

(** Line 62 is outside any [try]: a failed request raises. *)
Lemma fetch_temperature_unreachable (location : string) :
  fetch_tomorrow_temperature float_of_str world_unreachable location
  = Raise RequestException.
Proof. reflexivity. Qed.

(** The part of the contract the code keeps: with coordinates and an
    answer that is not 200, or is 200 with a JSON body, the call returns,
    and it returns 25 unless line 66 reads a temperature. *)
Lemma fetch_temperature_returns
    (w : World) (location : string) (c : Coordinates) (r : Response) :
  get_coordinates_from_city float_of_str w location = Some c ->
  tomorrow_forecast w (lat c) (lon c) = Ret r ->
  (status_code r <> 200%Z \/ body r <> None) ->
  exists t : R,
    fetch_tomorrow_temperature float_of_str w location = Ret t /\
    (t = 25 \/
     (status_code r = 200%Z /\
      exists data, body r = Some data /\
        first_hourly_temperature float_of_str data = Ret t)).
Proof.
  intros Hc Hr Hok. unfold fetch_tomorrow_temperature.
  rewrite Hc. cbn [subscript_coords bind]. rewrite Hr. cbn [bind].
  destruct (Z.eqb_spec (status_code r) 200) as [E200|N200].
  - destruct Hok as [Hne|Hbody]; [contradiction|].
    unfold response_json. destruct (body r) as [data|] eqn:Eb; [|contradiction].
    cbn [bind].
    destruct (first_hourly_temperature float_of_str data) as [t|e] eqn:Et.
    + exists t. split; [reflexivity|]. right. split; [exact E200|].
      exists data. split; [reflexivity | exact Et].
    + exists 25. split; [reflexivity | left; reflexivity].
  - exists 25. split; [reflexivity | left; reflexivity].
Qed.

End TemperatureFacts.

(** C9. The claim that the temperature fetch never fails its caller does
    not hold on a geocoding failure: when Nominatim finds no place,
    [get_coordinates_from_city] returns [None] and
    [fetch_tomorrow_temperature] raises [TypeError] instead of returning
    25. *)
Theorem C9_geocoding_failure_raises (float_of_str : string -> option R) :
  get_coordinates_from_city float_of_str world_no_match "Atlantis" = None /\
  fetch_tomorrow_temperature float_of_str world_no_match "Atlantis"
  = Raise TypeError.
Proof. split; reflexivity. Qed.

(** ** Further properties of the estimator *)

Section EstimatorFacts.

Lemma tilt_factor_ge_half (d : R) : 0 <= d <= 90 -> 0.5 <= tilt_factor d.
Proof.
  intros [H0 H90]. unfold tilt_factor.
  assert (Hsin : 0 <= sin (radians d)).
  { pose proof PI_RGT_0 as Hpi. apply sin_ge_0; unfold radians; nra. }
  lra.
Qed.

Lemma temp_factor_le_1 (t : R) : temp_factor t <= 1.
Proof. unfold temp_factor. pose proof (max0_nonneg (t - 25)). lra. Qed.

Lemma temp_factor_pos (t : R) : t < 275 -> 0 < temp_factor t.
Proof.
  intros Ht. destruct (Rle_dec t 25) as [Hc|Hc].
  - rewrite temp_factor_cool by exact Hc. lra.
  - rewrite temp_factor_hot by lra. lra.
Qed.

Lemma day_scale_pos (c : SolarCellCalculator) (kwh temp : R) :
  valid_panel c -> 0 < kwh -> temp < 275 -> 0 < day_scale c kwh temp.
Proof.
  intros [[He _] [Ha Ht]] Hk Htemp. unfold day_scale.
  pose proof (temp_factor_pos temp Htemp).
  pose proof (tilt_factor_ge_half _ Ht).
  repeat apply Rmult_lt_0_compat; lra.
Qed.

(** The weight written with the square of the distance to noon. *)
Lemma gauss_weight_square (h : Z) :
  gauss_weight h = exp (- IZR ((h - 12) * (h - 12)) / 32).
Proof.
  unfold gauss_weight. apply f_equal. rewrite mult_IZR. simpl. lra.
Qed.

(** An hour closer to noon has a larger weight. *)
Lemma gauss_weight_closer (a b : Z) :
  (Z.abs (a - 12) < Z.abs (b - 12))%Z -> gauss_weight b < gauss_weight a.
Proof.
  intros Hab. rewrite !gauss_weight_square. apply exp_increasing.
  assert (Hsq : ((a - 12) * (a - 12) < (b - 12) * (b - 12))%Z) by nia.
  apply IZR_lt in Hsq. lra.
Qed.

Lemma profile_closer (a b : nat) :
  (a < 24)%nat -> (b < 24)%nat ->
  (Z.abs (Z.of_nat a - 12) < Z.abs (Z.of_nat b - 12))%Z ->
  nth b profile 0 < nth a profile 0.
Proof.
  intros Ha Hb Hab. rewrite !profile_nth by assumption.
  pose proof profile_raw_sum_pos as Hs.
  unfold Rdiv. apply Rmult_lt_compat_r.
  - apply Rinv_0_lt_compat, Hs.
  - apply gauss_weight_closer, Hab.
Qed.

Lemma profile_pos (h : nat) : (h < 24)%nat -> 0 < nth h profile 0.
Proof.
  intros Hh. rewrite profile_nth by exact Hh.
  apply Rdiv_lt_0_compat; [apply gauss_weight_pos | apply profile_raw_sum_pos].
Qed.

End EstimatorFacts.

(** X1. With a daily irradiance of 0 the hourly list has 24 entries, each
    of them is 0, and the total is 0, for every panel and every
    temperature. *)
Theorem zero_irradiance_zero_output (self : SolarCellCalculator) (temp : R) :
  let r := calculate_daily_production self 0 temp in
  length (hourly_production r) = 24%nat /\
  Forall (fun x => x = 0) (hourly_production r) /\ total_production r = 0.
Proof.
  intros r. split; [reflexivity|]. unfold r.
  assert (Hs : day_scale self 0 temp = 0) by (unfold day_scale; ring).
  split.
  - rewrite hourly_production_eq, Hs. apply Forall_forall.
    intros x Hx. apply in_map_iff in Hx. destruct Hx as [w [<- _]]. ring.
  - rewrite total_production_eq. exact Hs.
Qed.

(** X2. For a valid panel and an irradiance >= 0 the total never exceeds
    irradiance x 1000 x area x efficiency, and at temperatures of at most
    25 degrees C it is at least half of that. *)
Theorem total_production_bounds (self : SolarCellCalculator) (kwh temp : R) :
  valid_panel self -> 0 <= kwh ->
  let r := calculate_daily_production self kwh temp in
  let ideal := kwh * 1000 * area_m2 self * efficiency self in
  total_production r <= ideal /\ (temp <= 25 -> ideal / 2 <= total_production r).
Proof.
  intros Hv Hk r ideal. unfold r. rewrite total_production_eq.
  destruct Hv as [[He _] [Ha Ht]].
  assert (Hi : 0 <= ideal) by (unfold ideal; repeat apply Rmult_le_pos; lra).
  pose proof (tilt_factor_bounds (tilt_angle self)) as [Hl0 Hl1].
  pose proof (tilt_factor_ge_half _ Ht) as Hhalf.
  pose proof (temp_factor_le_1 temp) as Htf.
  replace (day_scale self kwh temp)
    with (ideal * (temp_factor temp * tilt_factor (tilt_angle self)))
    by (unfold day_scale, ideal; ring).
  split.
  - destruct (Rle_dec 0 (temp_factor temp)) as [Hp|Hn].
    + assert (temp_factor temp * tilt_factor (tilt_angle self) <= 1) by nra.
      nra.
    + assert (temp_factor temp * tilt_factor (tilt_angle self) <= 0) by nra.
      nra.
  - intros Hc. rewrite (temp_factor_cool temp Hc). nra.
Qed.

Lemma total_production_bounds_witness :
  let r := calculate_daily_production (mkCalculator 0.20 2.0 30) 5.0 20 in
  total_production r <= 5.0 * 1000 * 2.0 * 0.20 /\
  (20 <= 25 -> 5.0 * 1000 * 2.0 * 0.20 / 2 <= total_production r).
Proof.
  apply (total_production_bounds (mkCalculator 0.20 2.0 30) 5.0 20).
  - unfold valid_panel; cbn [area_m2 efficiency tilt_angle]; lra.
  - lra.
Defined.

(** X3. For a valid panel, a positive irradiance and a temperature below
    275 degrees C every one of the 24 entries is strictly positive: the
    profile gives energy to every hour, midnight included. *)
Theorem every_hour_produces (self : SolarCellCalculator) (kwh temp : R) (h : nat) :
  valid_panel self -> 0 < kwh -> temp < 275 -> (h < 24)%nat ->
  0 < nth h (hourly_production (calculate_daily_production self kwh temp)) 0.
Proof.
  intros Hv Hk Ht Hh. rewrite hourly_production_nth by exact Hh.
  apply Rmult_lt_0_compat.
  - apply day_scale_pos; assumption.
  - apply profile_pos, Hh.
Qed.

Lemma every_hour_produces_witness :
  0 < nth 0 (hourly_production
               (calculate_daily_production (mkCalculator 0.20 2.0 30) 5.0 25)) 0.
Proof.
  apply (every_hour_produces (mkCalculator 0.20 2.0 30) 5.0 25 0).
  - unfold valid_panel; cbn [area_m2 efficiency tilt_angle]; lra.
  - lra.
  - lra.
  - lia.
Defined.

(** X4. For a valid panel, a positive irradiance and a temperature below
    275 degrees C the entries rise strictly from hour 0 to hour 12, fall
    strictly from hour 12 to hour 23, and hour 0 is strictly the smallest
    (hours 0..23 are not centred on 12). *)
Theorem hourly_profile_unimodal (self : SolarCellCalculator) (kwh temp : R) :
  valid_panel self -> 0 < kwh -> temp < 275 ->
  let l := hourly_production (calculate_daily_production self kwh temp) in
  (forall h : nat, (h < 12)%nat -> nth h l 0 < nth (S h) l 0) /\
  (forall h : nat, (12 <= h < 23)%nat -> nth (S h) l 0 < nth h l 0) /\
  (forall h : nat, (0 < h < 24)%nat -> nth 0 l 0 < nth h l 0).
Proof.
  intros Hv Hk Ht l. unfold l.
  pose proof (day_scale_pos self kwh temp Hv Hk Ht) as Hs.
  repeat split; intros h Hh; rewrite !hourly_production_nth by lia;
    apply Rmult_lt_compat_l; try exact Hs; apply profile_closer; lia.
Qed.

Lemma hourly_profile_unimodal_witness :
  let l := hourly_production
             (calculate_daily_production (mkCalculator 0.20 2.0 30) 5.0 25) in
  nth 3 l 0 < nth 4 l 0 /\ nth 15 l 0 < nth 14 l 0 /\ nth 0 l 0 < nth 23 l 0.
Proof.
  destruct (hourly_profile_unimodal (mkCalculator 0.20 2.0 30) 5.0 25)
    as [Hup [Hdown Hmin]].
  - unfold valid_panel; cbn [area_m2 efficiency tilt_angle]; lra.
  - lra.
  - lra.
  - split; [apply (Hup 3%nat); lia | split].
    + apply (Hdown 14%nat); lia.
    + apply (Hmin 23%nat); lia.
Defined.

Section ScalingFacts.

Lemma tilt_factor_increasing (a b : R) :
  0 <= a -> a < b -> b <= 90 -> tilt_factor a < tilt_factor b.
Proof.
  intros Ha Hab Hb. unfold tilt_factor.
  pose proof PI_RGT_0 as Hpi.
  assert (Hinc : sin (radians a) < sin (radians b))
    by (unfold radians; apply sin_increasing_1; nra).
  lra.
Qed.

Lemma tilt_factor_0 : tilt_factor 0 = 0.5.
Proof. unfold tilt_factor, radians. rewrite Rmult_0_l, sin_0. lra. Qed.

Lemma tilt_factor_90 : tilt_factor 90 = 1.
Proof. unfold tilt_factor. rewrite radians_90, sin_PI2. lra. Qed.

Lemma hourly_scaled (c c' : SolarCellCalculator) (kwh kwh' temp temp' k : R) :
  day_scale c' kwh' temp' = k * day_scale c kwh temp ->
  hourly_production (calculate_daily_production c' kwh' temp') =
  map (fun x => k * x)
      (hourly_production (calculate_daily_production c kwh temp)).
Proof.
  intros Hs. rewrite !hourly_production_eq, map_map, Hs.
  apply map_ext. intros w. ring.
Qed.

End ScalingFacts.

(** X5. The estimator is linear in the irradiance, in the area and in the
    efficiency: multiplying one of them by k multiplies each of the 24
    entries and the total by k. *)
Theorem production_scales_linearly
    (eff area tilt kwh temp k : R) :
  let r := calculate_daily_production (mkCalculator eff area tilt) kwh temp in
  let scaled (r' : ProductionResult) :=
    hourly_production r' = map (fun x => k * x) (hourly_production r) /\
    total_production r' = k * total_production r in
  scaled (calculate_daily_production (mkCalculator eff area tilt) (k * kwh) temp) /\
  scaled (calculate_daily_production (mkCalculator eff (k * area) tilt) kwh temp) /\
  scaled (calculate_daily_production (mkCalculator (k * eff) area tilt) kwh temp).
Proof.
  intros r scaled. unfold scaled, r.
  repeat split;
    first [ apply hourly_scaled | rewrite !total_production_eq ];
    unfold day_scale; cbn [area_m2 efficiency tilt_angle]; ring.
Qed.

(** X6. At 25 degrees C and above the total is the total at 25 degrees C
    times 1 - 0.004 x (T - 25): each degree removes 0.4 per cent of the
    25-degree output, and at 275 degrees C the total is 0. *)
Theorem total_production_derating (self : SolarCellCalculator) (kwh temp : R) :
  25 <= temp ->
  total_production (calculate_daily_production self kwh temp) =
  total_production (calculate_daily_production self kwh 25)
  * (1 - 0.004 * (temp - 25)) /\
  total_production (calculate_daily_production self kwh 275) = 0.
Proof.
  intros Ht. rewrite !total_production_eq, !day_scale_split.
  rewrite (temp_factor_hot temp Ht), (temp_factor_cool 25), (temp_factor_hot 275)
    by lra.
  split; ring_simplify; lra.
Qed.

Lemma total_production_derating_witness :
  total_production (calculate_daily_production (mkCalculator 0.20 2.0 30) 5.0 35) =
  total_production (calculate_daily_production (mkCalculator 0.20 2.0 30) 5.0 25)
  * (1 - 0.004 * (35 - 25)) /\
  total_production (calculate_daily_production (mkCalculator 0.20 2.0 30) 5.0 275) = 0.
Proof.
  apply (total_production_derating (mkCalculator 0.20 2.0 30) 5.0 35). lra.
Defined.

(** X7. A panel at 90 degrees produces twice what the same panel produces
    at 0 degrees; and with positive efficiency, area and irradiance and a
    temperature below 275 degrees C the total grows strictly with the tilt
    on [0, 90]. *)
Theorem total_production_tilt (eff area kwh temp : R) :
  total_production (calculate_daily_production (mkCalculator eff area 90) kwh temp) =
  2 * total_production (calculate_daily_production (mkCalculator eff area 0) kwh temp) /\
  (0 < eff -> 0 < area -> 0 < kwh -> temp < 275 ->
   forall a b : R, 0 <= a -> a < b -> b <= 90 ->
     total_production (calculate_daily_production (mkCalculator eff area a) kwh temp) <
     total_production (calculate_daily_production (mkCalculator eff area b) kwh temp)).
Proof.
  split.
  - rewrite !total_production_eq. unfold day_scale.
    cbn [area_m2 efficiency tilt_angle]. rewrite tilt_factor_0, tilt_factor_90.
    lra.
  - intros He Ha Hk Ht a b H0 Hab H90.
    rewrite !total_production_eq. unfold day_scale.
    cbn [area_m2 efficiency tilt_angle].
    apply Rmult_lt_compat_l.
    + pose proof (temp_factor_pos temp Ht).
      repeat apply Rmult_lt_0_compat; lra.
    + apply tilt_factor_increasing; assumption.
Qed.

Lemma total_production_tilt_witness :
  total_production (calculate_daily_production (mkCalculator 0.20 2.0 90) 5.0 25) =
  2 * total_production (calculate_daily_production (mkCalculator 0.20 2.0 0) 5.0 25) /\
  total_production (calculate_daily_production (mkCalculator 0.20 2.0 30) 5.0 25) <
  total_production (calculate_daily_production (mkCalculator 0.20 2.0 60) 5.0 25).
Proof.
  destruct (total_production_tilt 0.20 2.0 5.0 25) as [Hdouble Hmono].
  split; [exact Hdouble | apply Hmono; lra].
Defined.

(** ** Further properties of the collaborators *)

Section CollaboratorFacts.

Variable float_of_str : string -> option R.

Lemma raise_for_status_ok (r : Response) :
  raise_for_status r = Ret tt <->
  (status_code r < 400 \/ 600 <= status_code r)%Z.
Proof.
  unfold raise_for_status.
  destruct (Z.leb_spec 400 (status_code r)), (Z.ltb_spec (status_code r) 600);
    simpl; split; intros Hgoal; try discriminate; try reflexivity; lia.
Qed.

Lemma raise_for_status_error (r : Response) :
  (400 <= status_code r < 600)%Z -> raise_for_status r = Raise HTTPError.
Proof.
  intros [Hlo Hhi]. unfold raise_for_status.
  destruct (Z.leb_spec 400 (status_code r)), (Z.ltb_spec (status_code r) 600);
    simpl; try reflexivity; lia.
Qed.

(** [float] on an integer: the value when it fits, the error beyond. *)
Lemma py_float_int_examples :
  py_float float_of_str (JInt 21) = Ret 21 /\
  py_float float_of_str (JInt (10 ^ 400)) = Raise OverflowError.
Proof. split; vm_compute; reflexivity. Qed.

(** Line 66 on a forecast of the expected shape. *)
Lemma first_hourly_temperature_forecast_body (v : json) (later : list json) :
  first_hourly_temperature float_of_str (forecast_body v later)
  = py_float float_of_str v.
Proof. reflexivity. Qed.

End CollaboratorFacts.

(** X8. When the request for "<city>, USA" is answered with a status that
    is not 4xx or 5xx and a JSON list whose first item is an object,
    [get_coordinates_from_city] reads that item only: it returns the two
    numbers [float] makes of its fields "lat" and "lon", and [None] when
    one of the two fields is missing or [float] raises on it (a string
    that is no number, an integer too large for a float, null). *)
Theorem get_coordinates_reads_first_place
    (float_of_str : string -> option R) (w : World) (city : string)
    (r : Response) (fields : list (string * json)) (later : list json) :
  nominatim_search w (city ++ ", USA")%string = Ret r ->
  (status_code r < 400 \/ 600 <= status_code r)%Z ->
  body r = Some (JArr (JObj fields :: later)) ->
  (forall la lo x y,
     dict_get "lat" fields = Some la -> dict_get "lon" fields = Some lo ->
     py_float float_of_str la = Ret x -> py_float float_of_str lo = Ret y ->
     get_coordinates_from_city float_of_str w city = Some (mkCoordinates x y)) /\
  (dict_get "lat" fields = None \/ dict_get "lon" fields = None ->
   get_coordinates_from_city float_of_str w city = None) /\
  (forall la lo e,
     dict_get "lat" fields = Some la -> dict_get "lon" fields = Some lo ->
     py_float float_of_str la = Raise e \/ py_float float_of_str lo = Raise e ->
     get_coordinates_from_city float_of_str w city = None).
Proof.
  intros Hr Hs Hb. apply raise_for_status_ok in Hs.
  unfold get_coordinates_from_city, get_coordinates_body.
  rewrite Hr. cbn [bind]. rewrite Hs. cbn [bind].
  unfold response_json. rewrite Hb.
  cbn [bind truthy getitem_idx nth_error getitem_str].
  split; [|split].
  - intros la lo x y Hla Hlo Hx Hy.
    rewrite Hla. cbn [bind]. rewrite Hx. cbn [bind]. rewrite Hlo. cbn [bind].
    rewrite Hy. reflexivity.
  - intros [Hla | Hlo].
    + rewrite Hla. reflexivity.
    + destruct (dict_get "lat" fields) as [la|]; [|reflexivity].
      cbn [bind].
      destruct (py_float float_of_str la); [|reflexivity].
      cbn [bind]. rewrite Hlo. reflexivity.
  - intros la lo e Hla Hlo [Hx | Hy].
    + rewrite Hla. cbn [bind]. rewrite Hx. reflexivity.
    + rewrite Hla. cbn [bind].
      destruct (py_float float_of_str la); [|reflexivity].
      cbn [bind]. rewrite Hlo. cbn [bind]. rewrite Hy. reflexivity.
Qed.

Lemma get_coordinates_reads_first_place_witness :
  get_coordinates_from_city (fun _ => None) world_forecast "Austin"
  = Some (mkCoordinates 30.27 (- 97.74)).
Proof.
  destruct (get_coordinates_reads_first_place (fun _ => None) world_forecast
              "Austin" (mkResponse 200 (Some one_place))
              [("lat", JNum 30.27); ("lon", JNum (- 97.74))]%string [])
    as [Hread _].
  - reflexivity.
  - left. cbn [status_code]. lia.
  - reflexivity.
  - apply (Hread (JNum 30.27) (JNum (- 97.74))); reflexivity.
Defined.

(** X9. [get_coordinates_from_city] returns [None], and raises nothing,
    when the request fails, when the status is 4xx or 5xx, when the body is
    not JSON and when the body is JSON but false as a condition (an empty
    list, an empty object, null, 0). *)
Theorem get_coordinates_failures
    (float_of_str : string -> option R) (w : World) (city : string) :
  (exists e, nominatim_search w (city ++ ", USA")%string = Raise e) \/
  (exists r, nominatim_search w (city ++ ", USA")%string = Ret r /\
     ((400 <= status_code r < 600)%Z \/
      body r = None \/
      exists data, body r = Some data /\ truthy data = false)) ->
  get_coordinates_from_city float_of_str w city = None.
Proof.
  unfold get_coordinates_from_city, get_coordinates_body.
  intros [[e Er] | [r [Er Hcase]]]; rewrite Er; cbn [bind try_except].
  - reflexivity.
  - destruct (raise_for_status r) as [[]|e] eqn:Es; cbn [bind try_except];
      [|reflexivity].
    destruct Hcase as [Hst | [Hb | [data [Hb Ht]]]].
    + rewrite (raise_for_status_error r Hst) in Es. discriminate.
    + unfold response_json. rewrite Hb. reflexivity.
    + unfold response_json. rewrite Hb. cbn [bind]. rewrite Ht. reflexivity.
Qed.

Lemma get_coordinates_failures_witness :
  get_coordinates_from_city (fun _ => None) world_no_match "Atlantis" = None.
Proof.
  apply (get_coordinates_failures (fun _ => None) world_no_match "Atlantis").
  right. exists (mkResponse 200 (Some (JArr []))).
  split; [reflexivity|].
  right. right. exists (JArr []). split; reflexivity.
Defined.

(** X10. When geocoding fails, [fetch_daily_irradiance] returns [None]
    without asking the NREL endpoint, while [fetch_tomorrow_temperature]
    raises [TypeError]. *)
Theorem fetches_without_coordinates
    (float_of_str : string -> option R) (w : SolarWorld) (location : string) :
  get_coordinates_from_city float_of_str (services w) location = None ->
  fetch_daily_irradiance float_of_str w location = Ret JNull /\
  fetch_tomorrow_temperature float_of_str (services w) location
  = Raise TypeError.
Proof.
  intros Hnone. unfold fetch_daily_irradiance, fetch_tomorrow_temperature.
  rewrite Hnone. split; reflexivity.
Qed.

Lemma fetches_without_coordinates_witness :
  fetch_daily_irradiance (fun _ => None) solar_world_no_match "Atlantis"
  = Ret JNull /\
  fetch_tomorrow_temperature (fun _ => None) (services solar_world_no_match)
    "Atlantis" = Raise TypeError.
Proof.
  apply (fetches_without_coordinates (fun _ => None) solar_world_no_match
           "Atlantis").
  reflexivity.
Defined.

(** X11. Once the NREL endpoint has answered, [fetch_daily_irradiance]
    returns and raises nothing: it returns the value at
    outputs / avg_ghi / annual, unconverted, when the status is 200 and
    the body is JSON with that path, and [None] in every other case. *)
Theorem fetch_daily_irradiance_returns
    (float_of_str : string -> option R) (w : SolarWorld) (location : string)
    (c : Coordinates) (r : Response) :
  get_coordinates_from_city float_of_str (services w) location = Some c ->
  nrel_solar_resource w (lat c) (lon c) = Ret r ->
  (forall data v,
     status_code r = 200%Z -> body r = Some data ->
     annual_avg_ghi data = Ret v ->
     fetch_daily_irradiance float_of_str w location = Ret v) /\
  ((status_code r <> 200%Z \/ body r = None \/
    exists data e, body r = Some data /\ annual_avg_ghi data = Raise e) ->
   fetch_daily_irradiance float_of_str w location = Ret JNull).
Proof.
  intros Hc Hr. unfold fetch_daily_irradiance. rewrite Hc, Hr. cbn [bind].
  split.
  - intros data v Hs Hb Hv. rewrite Hs. cbn [Z.eqb Pos.eqb].
    unfold response_json. rewrite Hb. cbn [bind]. rewrite Hv. reflexivity.
  - intros Hcase.
    destruct (Z.eqb_spec (status_code r) 200) as [E200|N200]; [|reflexivity].
    destruct Hcase as [Hs | [Hb | [data [e [Hb He]]]]].
    + contradiction.
    + unfold response_json. rewrite Hb. reflexivity.
    + unfold response_json. rewrite Hb. cbn [bind]. rewrite He. reflexivity.
Qed.

Lemma fetch_daily_irradiance_returns_witness :
  fetch_daily_irradiance (fun _ => None) solar_world_sample "Austin"
  = Ret (JNum 5.1).
Proof.
  destruct (fetch_daily_irradiance_returns (fun _ => None) solar_world_sample
              "Austin" (mkCoordinates 30.27 (- 97.74))
              (mkResponse 200 (Some (solar_resource_body (JNum 5.1)))))
    as [Hvalue _].
  - reflexivity.
  - reflexivity.
  - apply (Hvalue (solar_resource_body (JNum 5.1)) (JNum 5.1)); reflexivity.
Defined.

(** X12. With coordinates, a request that fails raises the same exception
    out of [fetch_daily_irradiance] and out of
    [fetch_tomorrow_temperature]: neither [requests.get] is inside a
    [try]. *)
Theorem fetches_propagate_request_failure
    (float_of_str : string -> option R) (w : SolarWorld) (location : string)
    (c : Coordinates) (e1 e2 : exn) :
  get_coordinates_from_city float_of_str (services w) location = Some c ->
  nrel_solar_resource w (lat c) (lon c) = Raise e1 ->
  tomorrow_forecast (services w) (lat c) (lon c) = Raise e2 ->
  fetch_daily_irradiance float_of_str w location = Raise e1 /\
  fetch_tomorrow_temperature float_of_str (services w) location = Raise e2.
Proof.
  intros Hc H1 H2. unfold fetch_daily_irradiance, fetch_tomorrow_temperature.
  rewrite Hc. cbn [subscript_coords bind]. rewrite H1, H2. split; reflexivity.
Qed.

Lemma fetches_propagate_request_failure_witness :
  fetch_daily_irradiance (fun _ => None)
    (mkSolarWorld world_unreachable (fun _ _ => Raise RequestException))
    "Austin" = Raise RequestException /\
  fetch_tomorrow_temperature (fun _ => None) world_unreachable "Austin"
  = Raise RequestException.
Proof.
  apply (fetches_propagate_request_failure (fun _ => None)
           (mkSolarWorld world_unreachable (fun _ _ => Raise RequestException))
           "Austin" (mkCoordinates 30.27 (- 97.74))
           RequestException RequestException); reflexivity.
Defined.

(** X13. With coordinates and two answers of status 200 whose bodies are
    not JSON, [fetch_daily_irradiance] returns [None] (line 49 is inside
    the [try]) and [fetch_tomorrow_temperature] raises the decoding error
    (line 64 is outside it). *)
Theorem fetches_on_undecodable_body
    (float_of_str : string -> option R) (w : SolarWorld) (location : string)
    (c : Coordinates) (r1 r2 : Response) :
  get_coordinates_from_city float_of_str (services w) location = Some c ->
  nrel_solar_resource w (lat c) (lon c) = Ret r1 ->
  tomorrow_forecast (services w) (lat c) (lon c) = Ret r2 ->
  status_code r1 = 200%Z -> body r1 = None ->
  status_code r2 = 200%Z -> body r2 = None ->
  fetch_daily_irradiance float_of_str w location = Ret JNull /\
  fetch_tomorrow_temperature float_of_str (services w) location
  = Raise JSONDecodeError.
Proof.
  intros Hc H1 H2 Hs1 Hb1 Hs2 Hb2.
  unfold fetch_daily_irradiance, fetch_tomorrow_temperature.
  rewrite Hc. cbn [subscript_coords bind]. rewrite H1, H2. cbn [bind].
  rewrite Hs1, Hs2. cbn [Z.eqb Pos.eqb]. unfold response_json.
  rewrite Hb1, Hb2. split; reflexivity.
Qed.

Lemma fetches_on_undecodable_body_witness :
  fetch_daily_irradiance (fun _ => None)
    (mkSolarWorld world_bad_body (fun _ _ => Ret (mkResponse 200 None)))
    "Austin" = Ret JNull /\
  fetch_tomorrow_temperature (fun _ => None) world_bad_body "Austin"
  = Raise JSONDecodeError.
Proof.
  apply (fetches_on_undecodable_body (fun _ => None)
           (mkSolarWorld world_bad_body (fun _ _ => Ret (mkResponse 200 None)))
           "Austin" (mkCoordinates 30.27 (- 97.74))
           (mkResponse 200 None) (mkResponse 200 None)); reflexivity.
Defined.

(** X14. With coordinates and a 200 answer in the expected shape,
    [fetch_tomorrow_temperature] reads the first hourly entry, whatever the
    later ones: a float there is returned, an integer that fits a float is
    returned, and an integer too large for a float gives 25.  A 200 answer
    whose JSON body makes line 66 raise, and any status other than 200,
    give 25. *)
Theorem fetch_temperature_reads_first_hour
    (float_of_str : string -> option R) (w : World) (location : string)
    (c : Coordinates) (r : Response) :
  get_coordinates_from_city float_of_str w location = Some c ->
  tomorrow_forecast w (lat c) (lon c) = Ret r ->
  (forall t later,
     status_code r = 200%Z -> body r = Some (forecast_body (JNum t) later) ->
     fetch_tomorrow_temperature float_of_str w location = Ret t) /\
  (forall n later,
     status_code r = 200%Z -> body r = Some (forecast_body (JInt n) later) ->
     fetch_tomorrow_temperature float_of_str w location =
     Ret (if (Z.abs n <? float_int_limit)%Z then IZR n else 25)) /\
  (forall data e,
     status_code r = 200%Z -> body r = Some data ->
     first_hourly_temperature float_of_str data = Raise e ->
     fetch_tomorrow_temperature float_of_str w location = Ret 25) /\
  (status_code r <> 200%Z ->
   fetch_tomorrow_temperature float_of_str w location = Ret 25).
Proof.
  intros Hc Hr. unfold fetch_tomorrow_temperature.
  rewrite Hc. cbn [subscript_coords bind]. rewrite Hr. cbn [bind].
  split; [|split; [|split]].
  - intros t later Hs Hb. rewrite Hs. cbn [Z.eqb Pos.eqb].
    unfold response_json. rewrite Hb. reflexivity.
  - intros n later Hs Hb. rewrite Hs. cbn [Z.eqb Pos.eqb].
    unfold response_json. rewrite Hb. cbn [bind].
    rewrite first_hourly_temperature_forecast_body. cbn [py_float].
    destruct (Z.abs n <? float_int_limit)%Z; reflexivity.
  - intros data e Hs Hb He. rewrite Hs. cbn [Z.eqb Pos.eqb].
    unfold response_json. rewrite Hb. cbn [bind]. rewrite He. reflexivity.
  - intros Hs. destruct (Z.eqb_spec (status_code r) 200); [contradiction|].
    reflexivity.
Qed.

Lemma fetch_temperature_reads_first_hour_witness :
  fetch_tomorrow_temperature (fun _ => None) world_forecast "Austin" = Ret 21.5.
Proof.
  destruct (fetch_temperature_reads_first_hour (fun _ => None) world_forecast
              "Austin" (mkCoordinates 30.27 (- 97.74))
              (mkResponse 200 (Some (forecast_body (JNum 21.5) []))))
    as [Hread _].
  - reflexivity.
  - reflexivity.
  - apply (Hread 21.5 []); reflexivity.
Defined.

(** ** Properties of the report and of the tabs *)

Section TabFacts.

Lemma widget_panel_bounds (e : Z) (a : R) (t : Z) :
  widget_ranges e a t ->
  0.05 <= IZR e / 100 <= 0.30 /\ 0.1 <= a /\ 0 <= IZR t <= 90.
Proof.
  intros [[He1 He2] [Ha [Ht1 Ht2]]].
  apply IZR_le in He1, He2, Ht1, Ht2. lra.
Qed.

Lemma widget_panel_valid (e : Z) (a : R) (t : Z) :
  widget_ranges e a t -> valid_panel (panel_of_widgets e a t).
Proof.
  intros Hw. apply widget_panel_bounds in Hw.
  unfold valid_panel, panel_of_widgets; cbn [area_m2 efficiency tilt_angle].
  lra.
Qed.

Lemma day_scale_le_ideal (c : SolarCellCalculator) (kwh temp : R) :
  valid_panel c -> 0 <= kwh ->
  day_scale c kwh temp <= kwh * 1000 * area_m2 c * efficiency c.
Proof.
  intros [[He _] [Ha Ht]] Hk.
  set (ideal := kwh * 1000 * area_m2 c * efficiency c).
  assert (Hi : 0 <= ideal) by (unfold ideal; repeat apply Rmult_le_pos; lra).
  pose proof (tilt_factor_bounds (tilt_angle c)) as [Hl0 Hl1].
  pose proof (temp_factor_le_1 temp) as Htf.
  replace (day_scale c kwh temp)
    with (ideal * (temp_factor temp * tilt_factor (tilt_angle c)))
    by (unfold day_scale, ideal; ring).
  destruct (Rle_dec 0 (temp_factor temp)) as [Hp|Hn].
  - assert (temp_factor temp * tilt_factor (tilt_angle c) <= 1) by nra. nra.
  - assert (temp_factor temp * tilt_factor (tilt_angle c) <= 0) by nra. nra.
Qed.

Lemma hourly_nonneg_of_scale (c : SolarCellCalculator) (kwh temp : R) :
  0 <= day_scale c kwh temp ->
  Forall (fun x => 0 <= x)
    (hourly_production (calculate_daily_production c kwh temp)).
Proof.
  intros Hs. rewrite hourly_production_eq. apply Forall_forall.
  intros x Hx. apply in_map_iff in Hx. destruct Hx as [w [<- Hw]].
  pose proof (proj1 (Forall_forall _ _) profile_nonneg w Hw) as Hw0.
  apply Rmult_le_pos; assumption.
Qed.

Lemma tab2_runs (location : string) (c : Coordinates) (g t : R)
    (tilt monthly offset : Z) :
  location <> EmptyString ->
  tab2 location (Some c) (Some g) (Ret t) tilt monthly offset =
  Ret (size_system (target_annual_kwh monthly offset)
         (base_output_per_m2 (IZR tilt) g t)).
Proof.
  intros Hloc. unfold tab2.
  destruct (String.eqb_spec location EmptyString); [contradiction | reflexivity].
Qed.

Lemma base_output_closed (tilt g t : R) :
  base_output_per_m2 tilt g t = 365 * g * temp_factor t * tilt_factor tilt.
Proof.
  unfold base_output_per_m2. rewrite annual_kwh_eq. unfold day_scale.
  cbn [area_m2 efficiency tilt_angle]. field.
Qed.


End TabFacts.

(** X15. The two evaluations of the first tab never contradict each
    other: whenever the summary names a standard or a large system the
    one-line verdict is the favourable one, and whenever the verdict is the
    unfavourable one the summary names a small system. *)
Theorem verdict_agrees_with_tier (annual : R) :
  (classify_system annual <> (small_system, small_benefit) ->
   quick_evaluation annual = StSuccess) /\
  (quick_evaluation annual = StWarning ->
   classify_system annual = (small_system, small_benefit)).
Proof.
  unfold classify_system, quick_evaluation.
  destruct (Rle_dec 8000 annual), (Rle_dec 4000 annual),
           (Rle_dec 3000 annual), (Rle_dec 900 annual);
    split; intros H; try reflexivity; try discriminate H;
    try (exfalso; lra); try (exfalso; apply H; reflexivity).
Qed.

Lemma verdict_agrees_with_tier_witness :
  quick_evaluation 5000 = StSuccess.
Proof.
  apply (proj1 (verdict_agrees_with_tier 5000)).
  unfold classify_system.
  destruct (Rle_dec 8000 5000); [exfalso; lra|].
  destruct (Rle_dec 4000 5000); [discriminate | exfalso; lra].
Defined.

(** X16. Every setting of the three panel widgets (efficiency 5..30 per
    cent, area >= 0.1, tilt 0..90) gives a panel in the ranges of
    [valid_panel], with an efficiency between 0.05 and 0.30. *)
Theorem widgets_give_valid_panel (efficiency_pct : Z) (area : R) (tilt : Z) :
  widget_ranges efficiency_pct area tilt ->
  valid_panel (panel_of_widgets efficiency_pct area tilt) /\
  0.05 <= efficiency (panel_of_widgets efficiency_pct area tilt) <= 0.30.
Proof.
  intros Hw. split; [apply widget_panel_valid, Hw|].
  apply widget_panel_bounds in Hw. cbn [panel_of_widgets efficiency]. lra.
Qed.

Lemma widgets_give_valid_panel_witness :
  valid_panel (panel_of_widgets 20 2.0 30) /\
  0.05 <= efficiency (panel_of_widgets 20 2.0 30) <= 0.30.
Proof.
  apply (widgets_give_valid_panel 20 2.0 30).
  unfold widget_ranges. repeat split; try lia; lra.
Defined.

(** X17. In the first tab, with a city that is found, widget values in
    range, an irradiance >= 0 and a temperature of at most 275 degrees C,
    figures are shown: 24 non-negative plotted entries whose sum is the
    daily total, an annual figure of 0.365 times the daily total in Wh,
    between 0 and 109.5 x irradiance x area, and a summary only when the
    box is ticked. *)
Theorem tab1_shows_bounded_figures
    (format_2f : R -> string) (location : string) (c : Coordinates)
    (efficiency_pct : Z) (area : R) (tilt : Z) (ghi temp : R) (details : bool) :
  location <> EmptyString ->
  widget_ranges efficiency_pct area tilt -> 0 <= ghi -> temp <= 275 ->
  exists p : Performance,
    tab1 format_2f location (Some c) efficiency_pct area tilt
         (Some ghi) (Ret temp) details = Ret (PShown p) /\
    length (plotted p) = 24%nat /\
    Forall (fun x => 0 <= x) (plotted p) /\
    shown_total_wh p = Rsum (plotted p) /\
    shown_annual_kwh p = 0.365 * shown_total_wh p /\
    0 <= shown_annual_kwh p <= 109.5 * ghi * area /\
    (evaluation p = None <-> details = false).
Proof.
  intros Hloc Hw Hg Ht.
  pose proof (widget_panel_valid _ _ _ Hw) as Hv.
  pose proof (widget_panel_bounds _ _ _ Hw) as [He [Ha _]].
  set (calc := panel_of_widgets efficiency_pct area tilt) in *.
  pose proof (day_scale_nonneg calc ghi temp Hv Hg Ht) as Hs0.
  pose proof (day_scale_le_ideal calc ghi temp Hv Hg) as Hs1.
  unfold tab1.
  destruct (String.eqb_spec location EmptyString) as [E|_]; [contradiction|].
  cbn [bind]. eexists. split; [reflexivity|].
  cbn [plotted shown_total_wh shown_annual_kwh evaluation]. fold calc.
  rewrite total_production_eq.
  repeat split.
  - apply hourly_nonneg_of_scale, Hs0.
  - rewrite <- py_sum_Rsum.
    change (py_sum (hourly_production (calculate_daily_production calc ghi temp)))
      with (total_production (calculate_daily_production calc ghi temp)).
    rewrite total_production_eq. reflexivity.
  - lra.
  - lra.
  - assert (Hcap : ghi * 1000 * area_m2 calc * efficiency calc
                   <= ghi * 1000 * area * 0.30).
    { unfold calc; cbn [panel_of_widgets area_m2 efficiency].
      apply Rmult_le_compat_l; [|lra].
      repeat apply Rmult_le_pos; lra. }
    lra.
  - destruct details; [discriminate | reflexivity].
  - intros ->. reflexivity.
Qed.

Lemma tab1_shows_bounded_figures_witness :
  exists p : Performance,
    tab1 (fun _ => EmptyString) "Austin" (Some (mkCoordinates 30.27 (- 97.74)))
         20 2.0 30 (Some 5.0) (Ret 25) false = Ret (PShown p) /\
    length (plotted p) = 24%nat /\
    Forall (fun x => 0 <= x) (plotted p) /\
    shown_total_wh p = Rsum (plotted p) /\
    shown_annual_kwh p = 0.365 * shown_total_wh p /\
    0 <= shown_annual_kwh p <= 109.5 * 5.0 * 2.0 /\
    (evaluation p = None <-> false = false).
Proof.
  apply (tab1_shows_bounded_figures (fun _ => EmptyString) "Austin"
           (mkCoordinates 30.27 (- 97.74)) 20 2.0 30 5.0 25 false).
  - discriminate.
  - unfold widget_ranges. repeat split; try lia; lra.
  - lra.
  - lra.
Defined.

(** X18. With a city that is found, no irradiance and a temperature fetch
    that raises, the first and the second tab end with the exception, since
    they fetch the temperature before they test the irradiance; the third
    tab tests the irradiance first and stops with the irradiance error. *)
Theorem missing_irradiance_then_failing_temperature
    (format_2f : R -> string) (location : string) (c : Coordinates)
    (efficiency_pct : Z) (area : R) (tilt monthly_usage offset_target : Z)
    (details : bool) (e : exn) :
  location <> EmptyString ->
  tab1 format_2f location (Some c) efficiency_pct area tilt None (Raise e) details
  = Raise e /\
  tab2 location (Some c) None (Raise e) tilt monthly_usage offset_target
  = Raise e /\
  tab3 location (Some c) None (Raise e) efficiency_pct area tilt
  = Ret (PStopped no_irradiance_message).
Proof.
  intros Hloc. unfold tab1, tab2, tab3.
  destruct (String.eqb_spec location EmptyString) as [E|_]; [contradiction|].
  repeat split.
Qed.

Lemma missing_irradiance_then_failing_temperature_witness :
  tab1 (fun _ => EmptyString) "Austin" (Some (mkCoordinates 30.27 (- 97.74)))
       20 2.0 30 None (Raise TypeError) false = Raise TypeError /\
  tab2 "Austin" (Some (mkCoordinates 30.27 (- 97.74))) None (Raise TypeError)
       30 900 80 = Raise TypeError /\
  tab3 "Austin" (Some (mkCoordinates 30.27 (- 97.74))) None (Raise TypeError)
       20 2.0 30 = Ret (PStopped no_irradiance_message).
Proof.
  apply (missing_irradiance_then_failing_temperature (fun _ => EmptyString)
           "Austin" (mkCoordinates 30.27 (- 97.74)) 20 2.0 30 900 80 false
           TypeError).
  discriminate.
Defined.

(** X19. In each of the three tabs a city that is typed but not found
    stops the tab with the no-city error before anything is fetched:
    the outcome is the same whatever irradiance and temperature would have
    been, a raising temperature fetch included. *)
Theorem unknown_city_stops_every_tab
    (format_2f : R -> string) (location : string)
    (ghi : option R) (temperature : res R)
    (efficiency_pct : Z) (area : R) (tilt monthly_usage offset_target : Z)
    (details : bool) :
  location <> EmptyString ->
  tab1 format_2f location None efficiency_pct area tilt ghi temperature details
  = Ret (PStopped no_city_message) /\
  tab2 location None ghi temperature tilt monthly_usage offset_target
  = Ret (Stopped no_city_message) /\
  tab3 location None ghi temperature efficiency_pct area tilt
  = Ret (PStopped no_city_message).
Proof.
  intros Hloc. unfold tab1, tab2, tab3.
  destruct (String.eqb_spec location EmptyString) as [E|_]; [contradiction|].
  repeat split.
Qed.

Lemma unknown_city_stops_every_tab_witness :
  tab1 (fun _ => EmptyString) "Atlantis" None 20 2.0 30 (Some 5.0)
       (Raise TypeError) true = Ret (PStopped no_city_message) /\
  tab2 "Atlantis" None (Some 5.0) (Raise TypeError) 30 900 80
  = Ret (Stopped no_city_message) /\
  tab3 "Atlantis" None (Some 5.0) (Raise TypeError) 20 2.0 30
  = Ret (PStopped no_city_message).
Proof.
  apply (unknown_city_stops_every_tab (fun _ => EmptyString) "Atlantis"
           (Some 5.0) (Raise TypeError) 20 2.0 30 900 80 true).
  discriminate.
Defined.



(** X21. Whenever the sizing tab shows an area, with widget values in range
    (tilt 0..90, monthly use >= 50, offset 10..100) and a positive
    irradiance: the target is at least 60 kWh a year, area times the yield
    of one square metre is the target, the area is positive below 275
    degrees C and negative above. *)
Theorem sizing_area_sign
    (location : string) (c : Coordinates) (ghi temp : R)
    (tilt monthly_usage offset_target : Z) (target area : R) :
  location <> EmptyString ->
  (0 <= tilt <= 90)%Z -> (50 <= monthly_usage)%Z ->
  (10 <= offset_target <= 100)%Z ->
  0 < ghi ->
  tab2 location (Some c) (Some ghi) (Ret temp) tilt monthly_usage offset_target
  = Ret (Sized target area) ->
  60 <= target /\
  area * base_output_per_m2 (IZR tilt) ghi temp = target /\
  (temp < 275 -> 0 < area) /\
  (275 < temp -> area < 0).
Proof.
  intros Hloc [Ht0 Ht90] Hm [Ho1 Ho2] Hg Hrun.
  rewrite tab2_runs in Hrun by exact Hloc.
  apply IZR_le in Ht0, Ht90, Hm, Ho1, Ho2.
  pose proof (tilt_factor_ge_half (IZR tilt) (conj Ht0 Ht90)) as Htl.
  unfold size_system in Hrun.
  destruct (Req_dec_T (base_output_per_m2 (IZR tilt) ghi temp) 0) as [E|N];
    [discriminate Hrun|].
  injection Hrun as <- <-.
  assert (Htarget : 60 <= target_annual_kwh monthly_usage offset_target).
  { unfold target_annual_kwh. nra. }
  split; [exact Htarget | split; [field; exact N | split]].
  - intros Ht. pose proof (temp_factor_pos temp Ht) as Htf.
    apply Rdiv_lt_0_compat; [lra|].
    rewrite base_output_closed. repeat apply Rmult_lt_0_compat; lra.
  - intros Ht.
    assert (Htf : temp_factor temp < 0) by (rewrite temp_factor_hot; lra).
    assert (Hbase : base_output_per_m2 (IZR tilt) ghi temp < 0).
    { rewrite base_output_closed.
      replace (365 * ghi * temp_factor temp * tilt_factor (IZR tilt))
        with (- ((365 * ghi * tilt_factor (IZR tilt)) * (- temp_factor temp)))
        by ring.
      apply Ropp_lt_gt_0_contravar, Rlt_gt.
      repeat apply Rmult_lt_0_compat; lra. }
    unfold Rdiv.
    replace (target_annual_kwh monthly_usage offset_target
             * / base_output_per_m2 (IZR tilt) ghi temp)
      with (- (target_annual_kwh monthly_usage offset_target
               * / (- base_output_per_m2 (IZR tilt) ghi temp)))
      by (field; exact N).
    apply Ropp_lt_gt_0_contravar, Rlt_gt.
    apply Rmult_lt_0_compat; [lra | apply Rinv_0_lt_compat; lra].
Qed.

Lemma sizing_area_sign_witness :
  let target := target_annual_kwh 900 80 in
  let area := target / base_output_per_m2 30 5 25 in
  60 <= target /\
  area * base_output_per_m2 (IZR 30) 5 25 = target /\
  (25 < 275 -> 0 < area) /\
  (275 < 25 -> area < 0).
Proof.
  intros target area.
  apply (sizing_area_sign "Austin" (mkCoordinates 30.27 (- 97.74)) 5 25
           30 900 80 target area).
  - discriminate.
  - lia.
  - lia.
  - lia.
  - lra.
  - rewrite tab2_runs by discriminate. f_equal.
    apply size_system_nonzero. rewrite base_output_sample. lra.
Defined.

(** X22. In the third tab, with a city that is found, widget values in
    range, an irradiance >= 0 and a temperature of at most 275 degrees C,
    figures are shown: the CO2 offset is 0.146 kg per Wh of daily
    production, at most 43.8 x irradiance x area, and
    0 <= cars <= trees <= CO2. *)
Theorem tab3_shows_bounded_figures
    (location : string) (c : Coordinates)
    (efficiency_pct : Z) (area : R) (tilt : Z) (ghi temp : R) :
  location <> EmptyString ->
  widget_ranges efficiency_pct area tilt -> 0 <= ghi -> temp <= 275 ->
  exists i : Impact,
    tab3 location (Some c) (Some ghi) (Ret temp) efficiency_pct area tilt
    = Ret (PShown i) /\
    co2_saved_kg i =
      0.146 * total_production
                (calculate_daily_production
                   (panel_of_widgets efficiency_pct area tilt) ghi temp) /\
    co2_saved_kg i <= 43.8 * ghi * area /\
    0 <= cars_removed i /\
    cars_removed i <= trees_planted i /\
    trees_planted i <= co2_saved_kg i.
Proof.
  intros Hloc Hw Hg Ht.
  pose proof (widget_panel_valid _ _ _ Hw) as Hv.
  pose proof (widget_panel_bounds _ _ _ Hw) as [He [Ha _]].
  set (calc := panel_of_widgets efficiency_pct area tilt) in *.
  pose proof (day_scale_nonneg calc ghi temp Hv Hg Ht) as Hs0.
  pose proof (day_scale_le_ideal calc ghi temp Hv Hg) as Hs1.
  assert (Hcap : ghi * 1000 * area_m2 calc * efficiency calc
                 <= ghi * 1000 * area * 0.30).
  { unfold calc; cbn [panel_of_widgets area_m2 efficiency].
    apply Rmult_le_compat_l; [|lra].
    repeat apply Rmult_le_pos; lra. }
  unfold tab3.
  destruct (String.eqb_spec location EmptyString) as [E|_]; [contradiction|].
  cbn [bind]. eexists. split; [reflexivity|].
  unfold impact_of. cbn [co2_saved_kg trees_planted cars_removed]. fold calc.
  rewrite total_production_eq.
  repeat split; lra.
Qed.

Lemma tab3_shows_bounded_figures_witness :
  exists i : Impact,
    tab3 "Austin" (Some (mkCoordinates 30.27 (- 97.74))) (Some 5.0) (Ret 25)
         20 2.0 30 = Ret (PShown i) /\
    co2_saved_kg i =
      0.146 * total_production
                (calculate_daily_production (panel_of_widgets 20 2.0 30) 5.0 25) /\
    co2_saved_kg i <= 43.8 * 5.0 * 2.0 /\
    0 <= cars_removed i /\
    cars_removed i <= trees_planted i /\
    trees_planted i <= co2_saved_kg i.
Proof.
  apply (tab3_shows_bounded_figures "Austin" (mkCoordinates 30.27 (- 97.74))
           20 2.0 30 5.0 25).
  - discriminate.
  - unfold widget_ranges. repeat split; try lia; lra.
  - lra.
  - lra.
Defined.
